(** * m3u8_to_mp3_converter: playlist resolution and segment acquisition

    A shallow embedding of [m3u8_to_mp3_converter.py] and the properties its
    specification states about it.

    Python [str] values are embedded as [string]; a character is a code
    point below 256, so the tables of line boundaries and of white space
    below are the parts of Python's tables that lie in that range. *)

From Stdlib Require Import String Ascii List NArith Arith Lia Bool DecimalString
  DecimalNat.
From stdpp Require Import base strings list gmap.
Import ListNotations.

Local Open Scope list_scope.

(** ** The [str] methods the program calls *)

Module Py.

Definition ord (c : ascii) : N := N_of_ascii c.
Definition chr (n : N) : ascii := ascii_of_N n.

Definition LF : ascii := chr 10.
Definition CR : ascii := chr 13.

(** The characters [str.splitlines] treats as line boundaries:
    LF, VT, FF, CR, FS, GS, RS and NEL. *)
Definition is_linebreak (c : ascii) : bool :=
  existsb (N.eqb (ord c)) [10; 11; 12; 13; 28; 29; 30; 133]%N.

(** The characters [str.isspace] accepts, which [str.strip] removes:
    TAB, the line boundaries, US, the space and the no-break space. *)
Definition is_space (c : ascii) : bool :=
  existsb (N.eqb (ord c)) [9; 10; 11; 12; 13; 28; 29; 30; 31; 32; 133; 160]%N.

(** [s.splitlines()]: the scan of CPython's [stringlib], with [cur] the
    characters of the line being read.  A CR directly followed by LF is
    one boundary, and a boundary at the very end opens no further line. *)
Fixpoint splitlines_from (cur s : string) : list string :=
  match s with
  | "" => match cur with "" => [] | _ => [cur] end
  | String c rest =>
      if is_linebreak c then
        cur :: match rest with
               | String d rest' =>
                   if (Ascii.eqb c CR && Ascii.eqb d LF)%bool
                   then splitlines_from "" rest'
                   else splitlines_from "" rest
               | "" => []
               end
      else splitlines_from (cur +:+ String c "") rest
  end.

Definition splitlines (s : string) : list string := splitlines_from "" s.

(** [s.startswith(p)] *)
Fixpoint startswith (s p : string) {struct p} : bool :=
  match p, s with
  | "", _ => true
  | String a p', String b s' => Ascii.eqb a b && startswith s' p'
  | String _ _, "" => false
  end.

(** [s.lstrip(chars)] and [s.rstrip(chars)], the set [chars] given by
    its membership test. *)
Fixpoint lstrip_chars (p : ascii -> bool) (s : string) : string :=
  match s with
  | String c rest => if p c then lstrip_chars p rest else s
  | "" => ""
  end.

Fixpoint rstrip_chars (p : ascii -> bool) (s : string) : string :=
  match s with
  | String c rest =>
      match rstrip_chars p rest with
      | "" => if p c then "" else String c ""
      | r => String c r
      end
  | "" => ""
  end.

Definition strip_chars (p : ascii -> bool) (s : string) : string :=
  lstrip_chars p (rstrip_chars p s).

(** [s.strip()] removes white space at both ends. *)
Definition strip (s : string) : string := strip_chars is_space s.

(** Python's truth value of a [str]: [not s] holds of the empty string only. *)
Definition is_empty (s : string) : bool :=
  match s with "" => true | _ => false end.

(** A document written one line after the other, each closed by LF. *)
Definition unlines (ls : list string) : string :=
  fold_right (fun l acc => l +:+ String LF acc) "" ls.

End Py.

(** ** URL resolution: [urllib.parse.urljoin]

    The program resolves every reference with the standard library's
    [urljoin].  The model below follows CPython's [Lib/urllib/parse.py]
    ([urlsplit], [urlparse], [urlunparse], [urljoin]) on [str] arguments.
    The two checks of [urlsplit] that raise [ValueError] (a bracketed host
    that is no IPv6 literal, a host that changes under NFKC normalisation)
    are not part of the model. *)

Module UrlParse.

Definition uses_relative : list string :=
  [""; "ftp"; "http"; "gopher"; "nntp"; "imap"; "wais"; "file"; "https";
   "shttp"; "mms"; "prospero"; "rtsp"; "rtsps"; "rtspu"; "sftp"; "svn";
   "svn+ssh"; "ws"; "wss"].

Definition uses_netloc : list string :=
  [""; "ftp"; "http"; "gopher"; "nntp"; "telnet"; "imap"; "wais"; "file";
   "mms"; "https"; "shttp"; "snews"; "prospero"; "rtsp"; "rtsps"; "rtspu";
   "rsync"; "svn"; "svn+ssh"; "sftp"; "nfs"; "git"; "git+ssh"; "ws"; "wss";
   "itms-services"].

Definition uses_params : list string :=
  [""; "ftp"; "hdl"; "prospero"; "http"; "imap"; "https"; "shttp"; "rtsp";
   "rtsps"; "rtspu"; "sip"; "sips"; "mms"; "sftp"; "tel"].

Definition mem (s : string) (l : list string) : bool :=
  existsb (String.eqb s) l.

Definition between (lo hi : N) (c : ascii) : bool :=
  (lo <=? Py.ord c)%N && (Py.ord c <=? hi)%N.

Definition is_upper (c : ascii) : bool := between 65 90 c.
Definition is_alpha (c : ascii) : bool := is_upper c || between 97 122 c.
Definition is_digit (c : ascii) : bool := between 48 57 c.

(** [scheme_chars]: ASCII letters, digits and [+-.] *)
Definition is_scheme_char (c : ascii) : bool :=
  is_alpha c || is_digit c
  || existsb (Ascii.eqb c) ["+"; "-"; "."]%char.

Definition lower_char (c : ascii) : ascii :=
  if is_upper c then Py.chr (Py.ord c + 32) else c.

Fixpoint lower (s : string) : string :=
  match s with
  | "" => ""
  | String c r => String (lower_char c) (lower r)
  end.

Fixpoint forallb_str (p : ascii -> bool) (s : string) : bool :=
  match s with
  | "" => true
  | String c r => p c && forallb_str p r
  end.

Fixpoint filter_str (p : ascii -> bool) (s : string) : string :=
  match s with
  | "" => ""
  | String c r => if p c then String c (filter_str p r) else filter_str p r
  end.

(** [c in s] *)
Definition contains (c : ascii) (s : string) : bool :=
  negb (forallb_str (fun a => negb (Ascii.eqb a c)) s).

(** [s.split(c, 1)] when [c] occurs in [s]: the text before the first
    occurrence and the text after it. *)
Fixpoint cut (c : ascii) (s : string) : option (string * string) :=
  match s with
  | "" => None
  | String a r =>
      if Ascii.eqb a c then Some ("", r)
      else match cut c r with
           | Some (b, t) => Some (String a b, t)
           | None => None
           end
  end.

(** The same at the last occurrence: [s.rsplit(c, 1)]. *)
Fixpoint rcut (c : ascii) (s : string) : option (string * string) :=
  match s with
  | "" => None
  | String a r =>
      match rcut c r with
      | Some (b, t) => Some (String a b, t)
      | None => if Ascii.eqb a c then Some ("", r) else None
      end
  end.

(** The longest prefix without a character of [p], and the rest. *)
Fixpoint span_until (p : ascii -> bool) (s : string) : string * string :=
  match s with
  | "" => ("", "")
  | String a r =>
      if p a then ("", s)
      else let '(b, t) := span_until p r in (String a b, t)
  end.

(** [s.split(c)] *)
Fixpoint split (c : ascii) (s : string) : list string :=
  match s with
  | "" => [""]
  | String a r =>
      if Ascii.eqb a c then "" :: split c r
      else match split c r with
           | l :: ls => String a l :: ls
           | [] => [String a ""]
           end
  end.

(** [c.join(l)] *)
Fixpoint join (c : ascii) (l : list string) : string :=
  match l with
  | [] => ""
  | [x] => x
  | x :: l' => x +:+ String c (join c l')
  end.

Definition drop2 (s : string) : string :=
  match s with String _ (String _ r) => r | _ => "" end.

Definition is_c0_or_space (c : ascii) : bool := (Py.ord c <=? 32)%N.
Definition is_unsafe (c : ascii) : bool :=
  existsb (N.eqb (Py.ord c)) [9; 13; 10]%N.

Record SplitResult := mkSplit {
  s_scheme : string; s_netloc : string; s_path : string;
  s_query : string; s_fragment : string }.

Definition urlsplit (url scheme : string) : SplitResult :=
  let url := Py.lstrip_chars is_c0_or_space url in
  let scheme := Py.strip_chars is_c0_or_space scheme in
  let url := filter_str (fun c => negb (is_unsafe c)) url in
  let scheme := filter_str (fun c => negb (is_unsafe c)) scheme in
  let '(scheme, url) :=
    match cut ":" url with
    | Some (String c0 pre as head, rest) =>
        if is_alpha c0 && forallb_str is_scheme_char head
        then (lower head, rest) else (scheme, url)
    | _ => (scheme, url)
    end in
  let '(netloc, url) :=
    if Py.startswith url "//"
    then span_until (fun c => existsb (Ascii.eqb c) ["/"; "?"; "#"]%char)
                    (drop2 url)
    else ("", url) in
  let '(url, fragment) :=
    match cut "#" url with Some (u, f) => (u, f) | None => (url, "") end in
  let '(url, query) :=
    match cut "?" url with Some (u, q) => (u, q) | None => (url, "") end in
  mkSplit scheme netloc url query fragment.

Definition splitparams (url : string) : string * string :=
  match rcut "/" url with
  | Some (dir, last) =>
      match cut ";" last with
      | Some (seg, params) => (dir +:+ String "/" seg, params)
      | None => (url, "")
      end
  | None =>
      match cut ";" url with
      | Some (seg, params) => (seg, params)
      | None => (url, "")
      end
  end.

Record ParseResult := mkParse {
  scheme : string; netloc : string; path : string;
  params : string; query : string; fragment : string }.

Definition urlparse (url default_scheme : string) : ParseResult :=
  let r := urlsplit url default_scheme in
  let '(url, params) :=
    if mem (s_scheme r) uses_params && contains ";" (s_path r)
    then splitparams (s_path r) else (s_path r, "") in
  mkParse (s_scheme r) (s_netloc r) url params (s_query r) (s_fragment r).

Definition urlunsplit (scheme netloc url query fragment : string) : string :=
  let url :=
    if negb (Py.is_empty netloc)
       || (negb (Py.is_empty scheme) && mem scheme uses_netloc
           && negb (Py.startswith url "//"))
    then
      let url := if negb (Py.is_empty url) && negb (Py.startswith url "/")
                 then "/" +:+ url else url in
      "//" +:+ netloc +:+ url
    else url in
  let url := if Py.is_empty scheme then url else scheme +:+ ":" +:+ url in
  let url := if Py.is_empty query then url else url +:+ "?" +:+ query in
  if Py.is_empty fragment then url else url +:+ "#" +:+ fragment.

Definition urlunparse (p : ParseResult) : string :=
  let url := if Py.is_empty (params p) then path p
             else path p +:+ ";" +:+ params p in
  urlunsplit (scheme p) (netloc p) url (query p) (fragment p).

(** [segments[1:-1] = filter(None, segments[1:-1])] *)
Definition drop_inner_empties (segments : list string) : list string :=
  match segments with
  | first :: (_ :: _) as tl =>
      first :: List.filter (fun s => negb (Py.is_empty s)) (removelast tl)
             ++ [List.last tl ""]
  | _ => segments
  end.

(** The loop over [segments] that builds [resolved_path]. *)
Definition resolve_step (resolved_path : list string) (seg : string)
  : list string :=
  if String.eqb seg ".." then removelast resolved_path
  else if String.eqb seg "." then resolved_path
  else resolved_path ++ [seg].

Definition urljoin (base url : string) : string :=
  if Py.is_empty base then url
  else if Py.is_empty url then base
  else
    let b := urlparse base "" in
    let u := urlparse url (scheme b) in
    if negb (String.eqb (scheme u) (scheme b))
       || negb (mem (scheme u) uses_relative)
    then url
    else if mem (scheme u) uses_netloc && negb (Py.is_empty (netloc u))
    then urlunparse u
    else
      let netloc' := if mem (scheme u) uses_netloc then netloc b
                     else netloc u in
      if Py.is_empty (path u) && Py.is_empty (params u) then
        let query' := if Py.is_empty (query u) then query b else query u in
        urlunparse (mkParse (scheme u) netloc' (path b) (params b)
                            query' (fragment u))
      else
        let base_parts := split "/" (path b) in
        let base_parts :=
          if Py.is_empty (List.last base_parts "") then base_parts
          else removelast base_parts in
        let segments :=
          if Py.startswith (path u) "/" then split "/" (path u)
          else drop_inner_empties (base_parts ++ split "/" (path u)) in
        let resolved_path := fold_left resolve_step segments [] in
        let resolved_path :=
          if mem (List.last segments "") ["."; ".."]
          then resolved_path ++ [""] else resolved_path in
        let joined := join "/" resolved_path in
        urlunparse (mkParse (scheme u) netloc'
                            (if Py.is_empty joined then "/" else joined)
                            (params u) (query u) (fragment u)).

End UrlParse.

(** ** The playlist parser *)

Definition STREAM_INF : string := "#EXT-X-STREAM-INF".

(** The [for] loop of [is_master_playlist], which returns at the first
    line that starts with the tag. *)
Fixpoint is_master_loop (lines : list string) : bool :=
  match lines with
  | [] => false
  | line :: lines' =>
      if Py.startswith line STREAM_INF then true else is_master_loop lines'
  end.

Definition is_master_playlist (m3u8_content : string) : bool :=
  is_master_loop (Py.splitlines m3u8_content).

(** The loop of [select_variant_playlist]: [i] is the index of [line] in
    [lines] and [rest] the lines from index [i] on.  The line after the
    tag is read by index, as [lines[i + 1]] is. *)
Fixpoint select_variant_loop (lines : list string) (i : nat)
    (rest : list string) (base_url : string) : option string :=
  match rest with
  | [] => None
  | line :: rest' =>
      if Py.startswith line STREAM_INF then
        if i + 1 <? length lines then
          let variant_uri := Py.strip (nth (i + 1) lines "") in
          let variant_url := UrlParse.urljoin base_url variant_uri in
          Some variant_url
        else select_variant_loop lines (i + 1) rest' base_url
      else select_variant_loop lines (i + 1) rest' base_url
  end.

Definition select_variant_playlist (m3u8_content base_url : string)
  : option string :=
  let lines := Py.splitlines m3u8_content in
  select_variant_loop lines 0 lines base_url.

(** One turn of the loop over the lines of a media playlist
    ([download_m3u8_playlist], the [else] branch). *)
Definition segment_step (m3u8_url : string) (segment_urls : list string)
    (line : string) : list string :=
  let line := Py.strip line in
  if Py.is_empty line || Py.startswith line "#" then segment_urls
  else
    let segment_url := UrlParse.urljoin m3u8_url line in
    segment_urls ++ [segment_url].

Definition media_segment_urls (m3u8_url content : string) : list string :=
  let lines := Py.splitlines content in
  fold_left (segment_step m3u8_url) lines [].

(** [m3u8_url.rsplit('/', 1)[0] + '/'] *)
Definition base_url_of (m3u8_url : string) : string :=
  match UrlParse.rcut "/" m3u8_url with
  | Some (before, _) => before +:+ "/"
  | None => m3u8_url +:+ "/"
  end.

(** ** Paths and file names *)

Module OsPath.

(** [needle in s] *)
Fixpoint contains_sub (needle s : string) : bool :=
  Py.startswith s needle
  || match s with
     | "" => false
     | String _ r => contains_sub needle r
     end.

(** [s.endswith(suffix)] *)
Fixpoint endswith (s suffix : string) : bool :=
  String.eqb s suffix
  || match s with
     | "" => false
     | String _ r => endswith r suffix
     end.

(** [os.path.splitext(p)[1]]: the text from the last dot of the last
    path component on, provided a character other than a dot stands
    before that dot in the component. *)
Definition splitext_ext (p : string) : string :=
  let name := match UrlParse.rcut "/" p with
              | Some (_, last) => last
              | None => p
              end in
  match UrlParse.rcut "." name with
  | Some (stem, e) =>
      if UrlParse.forallb_str (Ascii.eqb ".") stem then ""
      else "." +:+ e
  | None => ""
  end.

(** [os.path.join(a, b)] on POSIX *)
Definition join (a b : string) : string :=
  if Py.startswith b "/" then b
  else if Py.is_empty a || endswith a "/" then a +:+ b
  else a +:+ "/" +:+ b.

Fixpoint zeros (n : nat) : string :=
  match n with
  | 0 => ""
  | S n' => String "0" (zeros n')
  end.

(** [f"{index:05d}"] for an index that is not negative *)
Definition format_05d (index : nat) : string :=
  let digits := NilEmpty.string_of_uint (Nat.to_uint index) in
  zeros (5 - String.length digits) +:+ digits.

End OsPath.

(** ** The world the program runs in

    What the program does to its surroundings is a sequence of requests
    and pauses, kept newest first in [trace], and the files it writes.
    The surroundings answer through three oracles: the HTTP server, which
    sees everything that happened before a request; the file system's
    permission to open a path for writing; the transcoder. *)

Inductive event :=
| Get (url : string)
| Sleep (seconds : nat).

Record Response := mkResponse {
  content_type : option string;     (* the [Content-Type] header, if sent *)
  text : string;                    (* [response.text] *)
  iter_content : list (list Byte.byte)  (* the chunks of the body *)
}.

Record World := mkWorld {
  trace : list event;
  files : gmap string (list Byte.byte)
}.

(** The places where the program stops with [sys.exit(1)], named as the
    specification names them; [Uncaught] is an exception that reaches
    [main]'s [except Exception]. *)
Inductive failure :=
| UsageError
| InputValidationError
| FetchError
| NoRenditionsError
| NoSegmentsError
| LocalIOError
| TranscodeError
| Uncaught.

Inductive result (A : Type) :=
| Return (a : A)
| SysExit (e : failure)
| OutOfFuel.
Arguments Return {A} a.
Arguments SysExit {A} e.
Arguments OutOfFuel {A}.

Definition M (A : Type) : Type := World -> result A * World.

Definition ret {A} (a : A) : M A := fun w => (Return a, w).
Definition exit {A} (e : failure) : M A := fun w => (SysExit e, w).

Definition bind {A B} (m : M A) (k : A -> M B) : M B :=
  fun w =>
    match m w with
    | (Return a, w1) => k a w1
    | (SysExit e, w1) => (SysExit e, w1)
    | (OutOfFuel, w1) => (OutOfFuel, w1)
    end.

Notation "x <- m ;; k" := (bind m (fun x => k))
  (at level 100, m at next level, right associativity).

Definition max_attempts : nat := 3.

Section Program.

Variable server : list event -> string -> option Response.
Variable writable : string -> bool.
Variable ffmpeg : list Byte.byte -> option (list Byte.byte).

(** One request; [None] stands for any [requests.RequestException],
    raised by the transport or by [raise_for_status]. *)
Definition http_get (url : string) (w : World) : option Response * World :=
  (server (trace w) url, mkWorld (Get url :: trace w) (files w)).

Definition sleep (seconds : nat) (w : World) : World :=
  mkWorld (Sleep seconds :: trace w) (files w).

(** The retry loop, the same in [download_m3u8_playlist] and in
    [download_segment].  [budget] bounds the turns of the [while]; it is
    started at [max_attempts], which the loop never uses up. *)
Fixpoint request_with_retry (budget attempt : nat) (url : string)
  : M Response :=
  fun w =>
    match budget with
    | 0 => (OutOfFuel, w)
    | S budget' =>
        if attempt <? max_attempts then
          match http_get url w with
          | (Some response, w1) => (Return response, w1)
          | (None, w1) =>
              let attempt := attempt + 1 in
              if attempt =? max_attempts then (SysExit FetchError, w1)
              else request_with_retry budget' attempt url (sleep 2 w1)
          end
        else (SysExit Uncaught, w)
    end.

(** [download_m3u8_playlist]; [fuel] bounds the depth of the recursive
    call, which the program itself does not bound. *)
Fixpoint download_m3u8_playlist (fuel : nat) (m3u8_url : string)
  : M (list string) :=
  fun w =>
    match fuel with
    | 0 => (OutOfFuel, w)
    | S fuel' =>
        match request_with_retry max_attempts 0 m3u8_url w with
        | (Return response, w1) =>
            let content := text response in
            let base_url := base_url_of m3u8_url in
            if is_master_playlist content then
              match select_variant_playlist content base_url with
              | Some variant_url =>
                  if Py.is_empty variant_url
                  then (SysExit NoRenditionsError, w1)
                  else download_m3u8_playlist fuel' variant_url w1
              | None => (SysExit NoRenditionsError, w1)
              end
            else
              let segment_urls := media_segment_urls m3u8_url content in
              match segment_urls with
              | [] => (SysExit NoSegmentsError, w1)
              | _ => (Return segment_urls, w1)
              end
        | (SysExit e, w1) => (SysExit e, w1)
        | (OutOfFuel, w1) => (OutOfFuel, w1)
        end
    end.

Definition segment_ext (segment_url : string) (response : Response)
  : string :=
  match content_type response with
  | Some content_type =>
      if OsPath.contains_sub "audio" content_type then ".aac" else ".ts"
  | None =>
      let ext :=
        OsPath.splitext_ext (UrlParse.path (UrlParse.urlparse segment_url ""))
      in
      if Py.is_empty ext then ".ts" else ext
  end.

(** The bytes the chunk loop writes: every chunk that is not empty. *)
Definition written_chunks (chunks : list (list Byte.byte))
  : list Byte.byte :=
  fold_left (fun data chunk =>
               match chunk with [] => data | _ => data ++ chunk end)
            chunks [].

Definition write_file (path : string) (data : list Byte.byte) (w : World)
  : World :=
  mkWorld (trace w) (<[path := data]> (files w)).

Definition download_segment (segment_url temp_dir : string) (index : nat)
  : M string :=
  response <- request_with_retry max_attempts 0 segment_url ;;
  let ext := segment_ext segment_url response in
  let segment_path :=
    OsPath.join temp_dir ("segment_" +:+ OsPath.format_05d index +:+ ext) in
  if writable segment_path then
    fun w =>
      (Return segment_path,
       write_file segment_path (written_chunks (iter_content response)) w)
  else exit LocalIOError.

(** The loop of [concatenate_segments] over a file system in which
    [output_path] is open: each segment is read whole and appended. *)
Fixpoint concatenate_loop (segment_paths : list string)
    (output_path : string) (fs : gmap string (list Byte.byte))
  : result unit * gmap string (list Byte.byte) :=
  match segment_paths with
  | [] => (Return tt, fs)
  | segment :: rest =>
      match fs !! segment with
      | Some data =>
          let written := default [] (fs !! output_path) in
          concatenate_loop rest output_path
            (<[output_path := written ++ data]> fs)
      | None => (SysExit LocalIOError, fs)
      end
  end.

Definition concatenate_segments (segment_paths : list string)
    (output_path : string) : M unit :=
  fun w =>
    if writable output_path then
      let '(r, fs) :=
        concatenate_loop segment_paths output_path
                         (<[output_path := []]> (files w)) in
      (r, mkWorld (trace w) fs)
    else (SysExit LocalIOError, w).

(** [convert_to_mp3]: the transcoder is a black box from the bytes of
    the input file to those of the output file; [None] is a run that
    fails or an executable that is not found. *)
Definition convert_to_mp3 (input_path output_path : string) : M unit :=
  fun w =>
    match files w !! input_path with
    | Some data =>
        match ffmpeg data with
        | Some mp3 => (Return tt, write_file output_path mp3 w)
        | None => (SysExit TranscodeError, w)
        end
    | None => (SysExit TranscodeError, w)
    end.

(** The loop of [main] over [enumerate(segment_urls, start=1)]. *)
Fixpoint download_all (segment_urls : list string) (temp_dir : string)
    (index : nat) (segment_paths : list string) : M (list string) :=
  match segment_urls with
  | [] => ret segment_paths
  | segment_url :: rest =>
      segment_path <- download_segment segment_url temp_dir index ;;
      download_all rest temp_dir (index + 1) (segment_paths ++ [segment_path])
  end.

(** [main], with [sys.argv] and the name of the temporary directory as
    arguments.  Removing the temporary directory on the way out is left
    out. *)
Definition main (fuel : nat) (argv : list string) (temp_dir : string)
  : M unit :=
  match argv with
  | [_; m3u8_url; output_mp3] =>
      if negb (Py.startswith m3u8_url "http://")
         && negb (Py.startswith m3u8_url "https://")
      then exit InputValidationError
      else if negb (OsPath.endswith output_mp3 ".mp3")
      then exit InputValidationError
      else
        segment_urls <- download_m3u8_playlist fuel m3u8_url ;;
        segment_paths <- download_all segment_urls temp_dir 1 [] ;;
        let concatenated_path := OsPath.join temp_dir "concatenated.aac" in
        _ <- concatenate_segments segment_paths concatenated_path ;;
        convert_to_mp3 concatenated_path output_mp3
  | _ => exit UsageError
  end.

End Program.

(** ** The parser operations as the specification words them

    These follow the text of the specification, not the program; the
    theorems below compare the program with them. *)

Module Spec.

(** [extractRenditions]: "on a stream-info tag line, takes the next line
    (if present) as the URI; entries with no following line are silently
    skipped; order matches document order". *)
Fixpoint extractRenditions (lines : list string) : list string :=
  match lines with
  | [] => []
  | line :: rest =>
      if Py.startswith line STREAM_INF then
        match rest with
        | uri :: _ => uri :: extractRenditions rest
        | [] => []
        end
      else extractRenditions rest
  end.



(** [extractSegmentReferences]: "for each line, trims whitespace; skips
    blank lines and lines starting with the comment marker; all other
    lines are taken as references, in order". *)
Definition extractSegmentReferences (lines : list string) : list string :=
  List.filter
    (fun line => negb (Py.is_empty line || Py.startswith line "#"))
    (map Py.strip lines).

End Spec.

(** ** Documents and servers used as examples *)

Module Examples.

Definition base : string := "http://host/path/".


(** A blank line between the tag and the URI. *)
Definition master_blank_then_uri : string :=
  Py.unlines ["#EXTM3U"; "#EXT-X-STREAM-INF:BANDWIDTH=128000"; "  ";
              "low/index.m3u8"].



Definition media_two : string :=
  Py.unlines ["#EXTM3U"; "seg_000.ts"; ""; "  seg_001.ts  "; "# end"].

Definition ok (body : string) : Response := mkResponse None body [].

(** A server that answers a request by the page stored for its URL,
    whatever happened before, and fails for every other URL. *)
Definition static_server (pages : list (string * string))
  : list event -> string -> option Response :=
  fun _ url =>
    match List.find (fun page => String.eqb (fst page) url) pages with
    | Some page => Some (ok (snd page))
    | None => None
    end.

Definition w0 : World := mkWorld [] ∅.

(** A server that fails the first [failures] requests made for a URL and
    answers the later ones from [pages]. *)
Definition flaky_server (failures : nat) (pages : list (string * string))
  : list event -> string -> option Response :=
  fun history url =>
    let asked :=
      List.filter (fun e => match e with
                            | Get u => String.eqb u url
                            | Sleep _ => false
                            end) history in
    if length asked <? failures then None
    else static_server pages history url.

Definition always_writable : string -> bool := fun _ => true.

Definition bytes (s : string) : list Byte.byte := String.list_byte_of_string s.

Definition media_url : string := "http://cdn/stream/index.m3u8".
Definition media_pages : list (string * string) :=
  [(media_url, media_two);
   ("http://cdn/stream/empty.m3u8", Py.unlines ["#EXTM3U"; "# nothing"])].
Definition three_attempts (url : string) : list event :=
  [Get url; Sleep 2; Get url; Sleep 2; Get url].

(** A media playlist and its two segments, the first sent in three chunks
    with a content type, the second in one chunk without. *)
Definition cdn_server : list event -> string -> option Response :=
  fun _ url =>
    if String.eqb url media_url then Some (ok media_two)
    else if String.eqb url "http://cdn/stream/seg_000.ts"
    then Some (mkResponse (Some "audio/aac") "" [bytes "AA"; []; bytes "BB"])
    else if String.eqb url "http://cdn/stream/seg_001.ts"
    then Some (mkResponse None "" [bytes "CC"])
    else None.

(** The world after the playlist and the two segments were fetched. *)
Definition cdn_downloaded : World :=
  mkWorld
    [Get "http://cdn/stream/seg_001.ts"; Get "http://cdn/stream/seg_000.ts";
     Get media_url]
    (<["/tmp/t/segment_00002.ts" := bytes "CC"]>
       (<["/tmp/t/segment_00001.aac" := bytes "AABB"]> ∅)).

(** The same server with its second segment out of reach. *)
Definition second_segment_down : list event -> string -> option Response :=
  fun history url =>
    if String.eqb url "http://cdn/stream/seg_001.ts" then None
    else cdn_server history url.

(** A transcoder that hands its input back. *)
Definition copy_transcoder : list Byte.byte -> option (list Byte.byte) :=
  fun data => Some data.

(** Three downloaded segments, tagged 1, 2 and 3. *)
Definition three_segments : World :=
  mkWorld []
    (<["/tmp/t/segment_00001.ts" := bytes "AA"]>
       (<["/tmp/t/segment_00002.ts" := bytes "BB"]>
          (<["/tmp/t/segment_00003.ts" := bytes "CC"]> ∅))).

Definition three_paths : list string :=
  ["/tmp/t/segment_00001.ts"; "/tmp/t/segment_00002.ts";
   "/tmp/t/segment_00003.ts"].









End Examples.

(** ** Notions the further properties are stated with *)

(** The trace after [k] attempts at [url], with the pause of two seconds
    between one attempt and the next. *)
Fixpoint attempts_trace (k : nat) (url : string) (before : list event)
  : list event :=
  match k with
  | 0 => before
  | S k' =>
      Get url :: match k' with
                 | 0 => before
                 | S _ => Sleep 2 :: attempts_trace k' url before
                 end
  end.

(** What the server has seen when attempt number [k] is made. *)
Definition seen_at_attempt (k : nat) (url : string) (before : list event)
  : list event :=
  match k with
  | 0 | 1 => before
  | S k' => Sleep 2 :: attempts_trace k' url before
  end.

(** What [os.path.join] puts before a relative name in [temp_dir]. *)
Definition temp_prefix (temp_dir : string) : string :=
  if Py.is_empty temp_dir || OsPath.endswith temp_dir "/" then temp_dir
  else temp_dir +:+ "/".

(** The name [download_segment] gives the file of segment number [index]. *)
Definition segment_path_of (temp_dir : string) (index : nat) (ext : string)
  : string :=
  OsPath.join temp_dir ("segment_" +:+ OsPath.format_05d index +:+ ext).

(** A path that [download_segment] can give to a segment numbered [lo] or
    higher: the extension begins with a dot. *)
Definition is_segment_path (temp_dir : string) (lo : nat) (path : string)
  : Prop :=
  exists index ext,
    lo <= index /\ path = segment_path_of temp_dir index (String "." ext).

(** The arguments [main] accepts: three entries, a URL that begins with
    [http://] or [https://], an output name that ends with [.mp3]. *)
Definition valid_args (argv : list string) : bool :=
  match argv with
  | [_; m3u8_url; output_mp3] =>
      (Py.startswith m3u8_url "http://" || Py.startswith m3u8_url "https://")
      && OsPath.endswith output_mp3 ".mp3"
  | _ => false
  end.

(** The bytes of a response, chunk after chunk. *)
Definition body (response : Response) : list Byte.byte :=
  concat (iter_content response).

(** The number a string of decimal digits stands for. *)
Definition decimal_value (s : string) : option nat :=
  option_map Nat.of_uint (NilEmpty.uint_of_string s).

(** ** Properties of the string primitives *)

Lemma startswith_spec s p :
  Py.startswith s p = true <-> exists rest, s = p +:+ rest.
Proof.
  revert s. induction p as [|a p IH]; intros s; simpl.
  - split; [intros _; now exists s | reflexivity].
  - destruct s as [|b s].
    + split; [discriminate | intros [r Hr]; discriminate].
    + rewrite andb_true_iff, Ascii.eqb_eq, IH. split.
      * intros [-> [r ->]]. now exists r.
      * intros [r Hr]. injection Hr as -> ->. eauto.
Qed.

Example splitlines_ex1 :
  Py.splitlines (Py.unlines ["#EXTM3U"; "seg_000.ts"; ""; "seg_001.ts"])
  = ["#EXTM3U"; "seg_000.ts"; ""; "seg_001.ts"].
Proof. reflexivity. Qed.

Example splitlines_ex2 :
  Py.splitlines ("a" +:+ String Py.CR (String Py.LF "b")) = ["a"; "b"]
  /\ Py.splitlines ("a" +:+ String Py.LF (String Py.CR "b")) = ["a"; ""; "b"]
  /\ Py.splitlines "" = []
  /\ Py.splitlines (String Py.LF "") = [""]
  /\ Py.splitlines "ab" = ["ab"].
Proof. repeat split. Qed.

Example strip_ex :
  Py.strip "  seg 1.ts  " = "seg 1.ts" /\ Py.strip "   " = "" /\ Py.strip "" = "".
Proof. repeat split. Qed.

(** ** Classification *)

Lemma is_master_loop_spec lines :
  is_master_loop lines = true
  <-> exists line, In line lines /\ Py.startswith line STREAM_INF = true.
Proof.
  induction lines as [|l ls IH]; cbn [is_master_loop In].
  - split; [discriminate | intros [? [[] _]]].
  - destruct (Py.startswith l STREAM_INF) eqn:E.
    + split; [intros _; exists l; auto | reflexivity].
    + rewrite IH. split.
      * intros [x [Hin Hx]]. exists x; auto.
      * intros [x [[->|Hin] Hx]]; [congruence | exists x; auto].
Qed.

(** C6: a document is classified as a master playlist exactly when one of
    its lines begins with the characters of the stream-info tag, and as a
    media playlist exactly when none does; the classification is a total
    function, so it answers on every document. *)
Theorem C6_classify_master_iff_tag_line :
  forall document : string,
    (is_master_playlist document = true
     <-> exists line rest,
           In line (Py.splitlines document) /\ line = STREAM_INF +:+ rest)
    /\ (is_master_playlist document = false
        <-> ~ exists line rest,
              In line (Py.splitlines document) /\ line = STREAM_INF +:+ rest).
Proof.
  intros document.
  assert (is_master_playlist document = true
          <-> exists line rest,
            In line (Py.splitlines document) /\ line = STREAM_INF +:+ rest)
    as Hiff.
  { unfold is_master_playlist. rewrite is_master_loop_spec. split.
    - intros [line [Hin Hs]]. apply startswith_spec in Hs as [rest ->]. eauto.
    - intros [line [rest [Hin ->]]]. exists (STREAM_INF +:+ rest).
      split; [exact Hin|]. apply startswith_spec; eauto. }
  split; [exact Hiff|].
  rewrite <- Hiff. destruct (is_master_playlist document); split; congruence.
Qed.

(** ** Rendition selection *)

Lemma nth_after_prefix (done : list string) (line uri : string) rest :
  nth (length done + 1) (done ++ line :: uri :: rest) "" = uri.
Proof.
  rewrite app_nth2 by lia.
  replace (length done + 1 - length done) with 1 by lia. reflexivity.
Qed.

(** The index loop computes the head of the specification's rendition
    list: [done] are the lines already passed. *)
Lemma select_variant_loop_spec (done rest : list string) (base_url : string) :
  select_variant_loop (done ++ rest) (length done) rest base_url
  = match Spec.extractRenditions rest with
    | [] => None
    | uri :: _ => Some (UrlParse.urljoin base_url (Py.strip uri))
    end.
Proof.
  revert done. induction rest as [|line rest IH]; intros done.
  - reflexivity.
  - cbn [select_variant_loop Spec.extractRenditions].
    assert (select_variant_loop (done ++ line :: rest) (length done + 1)
              rest base_url
            = match Spec.extractRenditions rest with
              | [] => None
              | uri :: _ => Some (UrlParse.urljoin base_url (Py.strip uri))
              end) as Hnext.
    { specialize (IH (done ++ [line])).
      rewrite <- app_assoc, length_app in IH. exact IH. }
    destruct (Py.startswith line STREAM_INF) eqn:Htag; [|exact Hnext].
    destruct rest as [|uri rest'].
    + assert ((length done + 1 <? length (done ++ [line])) = false) as ->.
      { apply Nat.ltb_ge. rewrite length_app. simpl. lia. }
      reflexivity.
    + assert ((length done + 1 <? length (done ++ line :: uri :: rest')) = true)
        as ->.
      { apply Nat.ltb_lt. rewrite length_app. simpl. lia. }
      rewrite nth_after_prefix. reflexivity.
Qed.

Lemma select_variant_playlist_spec (m3u8_content base_url : string) :
  select_variant_playlist m3u8_content base_url
  = match Spec.extractRenditions (Py.splitlines m3u8_content) with
    | [] => None
    | uri :: _ => Some (UrlParse.urljoin base_url (Py.strip uri))
    end.
Proof.
  unfold select_variant_playlist.
  exact (select_variant_loop_spec [] (Py.splitlines m3u8_content) base_url).
Qed.

(** Lines that carry no tag contribute no rendition. *)
Lemma extractRenditions_skip_prefix (pre rest : list string) :
  Forall (fun line => Py.startswith line STREAM_INF = false) pre ->
  Spec.extractRenditions (pre ++ rest) = Spec.extractRenditions rest.
Proof.
  induction 1 as [|line pre Hline _ IH]; [reflexivity|].
  cbn [app Spec.extractRenditions]. rewrite Hline. exact IH.
Qed.

Lemma select_first_tag (m3u8_content base_url tag : string)
    (pre rest : list string) :
  Py.splitlines m3u8_content = pre ++ tag :: rest ->
  Forall (fun line => Py.startswith line STREAM_INF = false) pre ->
  Py.startswith tag STREAM_INF = true ->
  select_variant_playlist m3u8_content base_url
  = match rest with
    | [] => None
    | next :: _ => Some (UrlParse.urljoin base_url (Py.strip next))
    end.
Proof.
  intros Hlines Hpre Htag.
  rewrite select_variant_playlist_spec, Hlines,
    extractRenditions_skip_prefix by exact Hpre.
  cbn [Spec.extractRenditions]. rewrite Htag.
  destruct rest; reflexivity.
Qed.

Lemma select_no_tag (m3u8_content base_url : string) :
  is_master_playlist m3u8_content = false ->
  select_variant_playlist m3u8_content base_url = None.
Proof.
  unfold is_master_playlist. intros Hno.
  rewrite select_variant_playlist_spec.
  induction (Py.splitlines m3u8_content) as [|line lines IH]; [reflexivity|].
  cbn [is_master_loop] in Hno. cbn [Spec.extractRenditions].
  destruct (Py.startswith line STREAM_INF); [discriminate|]. auto.
Qed.

Lemma rstrip_all (p : ascii -> bool) (s : string) :
  UrlParse.forallb_str p s = true -> Py.rstrip_chars p s = "".
Proof.
  induction s as [|c s IH]; [reflexivity|].
  cbn [UrlParse.forallb_str Py.rstrip_chars].
  intros [Hc Hs]%andb_true_iff. rewrite (IH Hs), Hc. reflexivity.
Qed.

Lemma strip_whitespace_only (s : string) :
  UrlParse.forallb_str Py.is_space s = true -> Py.strip s = "".
Proof.
  intros H. unfold Py.strip, Py.strip_chars. rewrite rstrip_all by exact H.
  reflexivity.
Qed.

Lemma urljoin_empty_reference (base : string) : UrlParse.urljoin base "" = base.
Proof. unfold UrlParse.urljoin. destruct base; reflexivity. Qed.



(** C10: when the line after the first tag consists of white space only,
    selection answers with the base URL itself: neither [None] nor the
    URI of a later rendition. *)
Theorem C10_blank_line_after_tag_selects_base :
  forall (m3u8_content base_url tag blank : string) (pre rest : list string),
    Py.splitlines m3u8_content = pre ++ tag :: blank :: rest ->
    Forall (fun line => Py.startswith line STREAM_INF = false) pre ->
    Py.startswith tag STREAM_INF = true ->
    UrlParse.forallb_str Py.is_space blank = true ->
    select_variant_playlist m3u8_content base_url = Some base_url
    /\ UrlParse.urljoin base_url "" = base_url.
Proof.
  intros m3u8_content base_url tag blank pre rest Hlines Hpre Htag Hblank.
  rewrite (select_first_tag _ _ _ _ _ Hlines Hpre Htag).
  rewrite strip_whitespace_only by exact Hblank.
  rewrite urljoin_empty_reference. split; reflexivity.
Qed.




Lemma C10_blank_line_after_tag_selects_base_witness :
  select_variant_playlist Examples.master_blank_then_uri Examples.base
  = Some Examples.base
  /\ UrlParse.urljoin Examples.base "" = Examples.base.
Proof.
  apply (C10_blank_line_after_tag_selects_base
           Examples.master_blank_then_uri Examples.base
           "#EXT-X-STREAM-INF:BANDWIDTH=128000" "  " ["#EXTM3U"]
           ["low/index.m3u8"]).
  - vm_compute. reflexivity.
  - repeat constructor.
  - vm_compute. reflexivity.
  - vm_compute. reflexivity.
Defined.

(** ** Segment references *)

Lemma segment_loop_spec (m3u8_url : string) (lines acc : list string) :
  fold_left (segment_step m3u8_url) lines acc
  = acc ++ map (UrlParse.urljoin m3u8_url) (Spec.extractSegmentReferences lines).
Proof.
  revert acc. induction lines as [|line lines IH]; intros acc.
  - cbn. rewrite app_nil_r. reflexivity.
  - cbn [fold_left]. rewrite IH. unfold segment_step.
    unfold Spec.extractSegmentReferences. cbn [map List.filter].
    destruct (Py.is_empty (Py.strip line) || Py.startswith (Py.strip line) "#");
      cbn [negb map]; [reflexivity|].
    rewrite <- app_assoc. reflexivity.
Qed.




Example media_two_urls :
  media_segment_urls "http://cdn/stream/index.m3u8" Examples.media_two
  = ["http://cdn/stream/seg_000.ts"; "http://cdn/stream/seg_001.ts"].
Proof. vm_compute. reflexivity. Qed.

(** ** The retry loop and the resolver *)

Section Resolver.

Variable server : list event -> string -> option Response.
Variable writable : string -> bool.

(** What three attempts leave in the trace. *)
Lemma request_with_retry_outcome (url : string) (w : World) :
  let t1 := Get url :: trace w in
  let t2 := Get url :: Sleep 2 :: t1 in
  let t3 := Get url :: Sleep 2 :: t2 in
  server (trace w) url = None ->
  server (Sleep 2 :: t1) url = None ->
  request_with_retry server max_attempts 0 url w
  = match server (Sleep 2 :: t2) url with
    | Some response => (Return response, mkWorld t3 (files w))
    | None => (SysExit FetchError, mkWorld t3 (files w))
    end.
Proof.
  intros t1 t2 t3 H1 H2. subst t1 t2 t3.
  unfold max_attempts. cbn [request_with_retry Nat.ltb Nat.leb].
  unfold http_get, sleep. cbn [trace files Nat.add Nat.eqb].
  rewrite H1. cbn [trace files Nat.add Nat.eqb Nat.ltb Nat.leb].
  rewrite H2. cbn [trace files Nat.add Nat.eqb Nat.ltb Nat.leb].
  destruct (server _ url); reflexivity.
Qed.


(** The loop started with [max_attempts] turns never runs out of them,
    and never leaves the [while] without a response. *)
Lemma request_with_retry_total (url : string) (w : World) :
  exists w1,
    (exists response,
        request_with_retry server max_attempts 0 url w = (Return response, w1))
    \/ request_with_retry server max_attempts 0 url w
       = (SysExit FetchError, w1).
Proof.
  unfold max_attempts. cbn [request_with_retry Nat.ltb Nat.leb].
  unfold http_get, sleep. cbn [trace files Nat.add Nat.eqb].
  destruct (server (trace w) url); [eauto|].
  cbn [trace files Nat.add Nat.eqb Nat.ltb Nat.leb].
  destruct (server _ url); [eauto|].
  cbn [trace files Nat.add Nat.eqb Nat.ltb Nat.leb].
  destruct (server _ url); eauto.
Qed.


Lemma download_media_step fuel url w response w1 :
  request_with_retry server max_attempts 0 url w = (Return response, w1) ->
  is_master_playlist (text response) = false ->
  download_m3u8_playlist server (S fuel) url w
  = (match media_segment_urls url (text response) with
     | [] => SysExit NoSegmentsError
     | urls => Return urls
     end, w1).
Proof.
  intros Hget Hmedia. cbn [download_m3u8_playlist].
  rewrite Hget, Hmedia. destruct (media_segment_urls _ _); reflexivity.
Qed.

Lemma download_fetch_error fuel url w w1 e :
  request_with_retry server max_attempts 0 url w = (SysExit e, w1) ->
  download_m3u8_playlist server (S fuel) url w = (SysExit e, w1).
Proof.
  intros Hget. cbn [download_m3u8_playlist]. rewrite Hget. reflexivity.
Qed.

Lemma download_returns_nonempty fuel url w urls w' :
  download_m3u8_playlist server fuel url w = (Return urls, w') ->
  urls <> [].
Proof.
  revert url w. induction fuel as [|fuel IH]; intros url w.
  - cbn. discriminate.
  - cbn [download_m3u8_playlist].
    destruct (request_with_retry server max_attempts 0 url w)
      as [[response| |] w1]; try discriminate.
    destruct (is_master_playlist (text response)).
    + destruct (select_variant_playlist _ _) as [variant_url|];
        [|discriminate].
      destruct (Py.is_empty variant_url); [discriminate|]. apply IH.
    + destruct (media_segment_urls url (text response)) eqn:E;
        [discriminate|].
      intros [= <- _]. discriminate.
Qed.

Lemma download_all_app pre post temp_dir index acc w :
  download_all server writable (pre ++ post) temp_dir index acc w
  = match download_all server writable pre temp_dir index acc w with
    | (Return paths, w1) =>
        download_all server writable post temp_dir (index + length pre)
                     paths w1
    | other => other
    end.
Proof.
  revert index acc w. induction pre as [|u pre IH]; intros index acc w.
  - cbn. rewrite Nat.add_0_r. reflexivity.
  - cbn [app download_all length]. unfold bind.
    destruct (download_segment server writable u temp_dir index w)
      as [[path| |] w1]; try reflexivity.
    rewrite IH. replace (index + 1 + length pre) with (index + S (length pre))
      by lia. reflexivity.
Qed.

Lemma download_all_stops_at before after url temp_dir index acc w0 w paths
    e w' :
  download_all server writable before temp_dir index acc w0
  = (Return paths, w) ->
  download_segment server writable url temp_dir (index + length before) w
  = (SysExit e, w') ->
  download_all server writable (before ++ url :: after) temp_dir index acc w0
  = (SysExit e, w').
Proof.
  intros Hbefore Hseg. rewrite download_all_app, Hbefore.
  cbn [download_all]. unfold bind at 1. rewrite Hseg. reflexivity.
Qed.

(** A failure of the download loop is the outcome of [main]: nothing is
    concatenated and nothing is transcoded after it. *)
Lemma main_stops_with_download ffmpeg fuel program m3u8_url output_mp3
    temp_dir w0 wp urls e w' :
  (Py.startswith m3u8_url "http://" || Py.startswith m3u8_url "https://")
  = true ->
  OsPath.endswith output_mp3 ".mp3" = true ->
  download_m3u8_playlist server fuel m3u8_url w0 = (Return urls, wp) ->
  download_all server writable urls temp_dir 1 [] wp = (SysExit e, w') ->
  main server writable ffmpeg fuel [program; m3u8_url; output_mp3]
       temp_dir w0
  = (SysExit e, w').
Proof.
  intros Hurl Hmp3 Hlist Hloop. unfold main.
  apply orb_true_iff in Hurl.
  assert (negb (Py.startswith m3u8_url "http://")
          && negb (Py.startswith m3u8_url "https://") = false) as ->.
  { destruct Hurl as [-> | ->]; cbn [negb andb];
      [reflexivity | apply andb_false_r]. }
  rewrite Hmp3. cbn [negb]. unfold bind at 1. rewrite Hlist.
  unfold bind at 1. rewrite Hloop. reflexivity.
Qed.

End Resolver.

(** C7: a request is tried three times at most.  When the first two
    attempts fail and the third succeeds, the request yields the third
    answer without error, in the playlist fetch and in the segment fetch
    alike; when the third fails too, the request stops the program with
    the fetch failure: the resolver returns nothing, and the download loop
    stops on that segment, so that the trace ends with its third attempt
    and no later segment is asked for, and [main] ends there, before any
    concatenation or transcoding. *)
Theorem C7_three_attempts_then_abort :
  forall (server : list event -> string -> option Response)
         (writable : string -> bool) (url : string) (w : World),
    let t1 := Get url :: trace w in
    let t2 := Get url :: Sleep 2 :: t1 in
    let t3 := Get url :: Sleep 2 :: t2 in
    server (trace w) url = None ->
    server (Sleep 2 :: t1) url = None ->
    match server (Sleep 2 :: t2) url with
    | Some response =>
        request_with_retry server max_attempts 0 url w
        = (Return response, mkWorld t3 (files w))
        /\ (forall fuel,
               is_master_playlist (text response) = false ->
               download_m3u8_playlist server (S fuel) url w
               = (match media_segment_urls url (text response) with
                  | [] => SysExit NoSegmentsError
                  | urls => Return urls
                  end, mkWorld t3 (files w)))
        /\ (forall temp_dir index,
               let segment_path :=
                 OsPath.join temp_dir
                   ("segment_" +:+ OsPath.format_05d index
                    +:+ segment_ext url response) in
               writable segment_path = true ->
               download_segment server writable url temp_dir index w
               = (Return segment_path,
                  mkWorld t3 (<[segment_path :=
                                  written_chunks (iter_content response)]>
                                (files w))))
    | None =>
        request_with_retry server max_attempts 0 url w
        = (SysExit FetchError, mkWorld t3 (files w))
        /\ (forall fuel,
               download_m3u8_playlist server (S fuel) url w
               = (SysExit FetchError, mkWorld t3 (files w)))
        /\ (forall temp_dir index,
               download_segment server writable url temp_dir index w
               = (SysExit FetchError, mkWorld t3 (files w)))
        /\ (forall before after temp_dir index acc w0 paths,
               download_all server writable before temp_dir index acc w0
               = (Return paths, w) ->
               download_all server writable (before ++ url :: after)
                            temp_dir index acc w0
               = (SysExit FetchError, mkWorld t3 (files w)))
        /\ (forall ffmpeg fuel program m3u8_url output_mp3 before after
                   temp_dir w0 wp paths,
               (Py.startswith m3u8_url "http://"
                || Py.startswith m3u8_url "https://") = true ->
               OsPath.endswith output_mp3 ".mp3" = true ->
               download_m3u8_playlist server fuel m3u8_url w0
               = (Return (before ++ url :: after), wp) ->
               download_all server writable before temp_dir 1 [] wp
               = (Return paths, w) ->
               main server writable ffmpeg fuel
                    [program; m3u8_url; output_mp3] temp_dir w0
               = (SysExit FetchError, mkWorld t3 (files w)))
    end.
Proof.
  intros server writable url w t1 t2 t3 H1 H2.
  pose proof (request_with_retry_outcome server url w H1 H2) as Hout.
  cbv zeta in Hout. fold t1 t2 t3 in Hout.
  destruct (server (Sleep 2 :: t2) url) as [response|].
  - split; [exact Hout|]. split.
    + intros fuel Hmedia. now apply download_media_step.
    + intros temp_dir index segment_path Hw.
      unfold download_segment, bind. rewrite Hout.
      fold segment_path. rewrite Hw. reflexivity.
  - split; [exact Hout|]. split; [|split; [|split]].
    + intros fuel. now apply download_fetch_error.
    + intros temp_dir index. unfold download_segment, bind.
      rewrite Hout. reflexivity.
    + intros before after temp_dir index acc w0 paths Hbefore.
      apply (download_all_stops_at server writable before after url temp_dir
               index acc w0 w paths FetchError _ Hbefore).
      unfold download_segment, bind. rewrite Hout. reflexivity.
    + intros ffmpeg fuel program m3u8_url output_mp3 before after temp_dir
             w0 wp paths Hurl Hmp3 Hlist Hbefore.
      apply (main_stops_with_download server writable ffmpeg fuel program
               m3u8_url output_mp3 temp_dir w0 wp _ FetchError _ Hurl Hmp3
               Hlist).
      apply (download_all_stops_at server writable before after url temp_dir
               1 [] wp w paths FetchError _ Hbefore).
      unfold download_segment, bind. rewrite Hout. reflexivity.
Qed.

(** C8: a media playlist without a single segment reference stops the
    resolver with the no-segments failure, so every list the resolver
    returns has an entry. *)
Theorem C8_no_segments_is_a_failure :
  forall (server : list event -> string -> option Response)
         (fuel : nat) (m3u8_url : string) (w : World),
    (forall response w1,
        request_with_retry server max_attempts 0 m3u8_url w
        = (Return response, w1) ->
        is_master_playlist (text response) = false ->
        Spec.extractSegmentReferences (Py.splitlines (text response)) = [] ->
        download_m3u8_playlist server (S fuel) m3u8_url w
        = (SysExit NoSegmentsError, w1))
    /\ (forall urls w',
           download_m3u8_playlist server fuel m3u8_url w = (Return urls, w') ->
           urls <> []).
Proof.
  intros server fuel m3u8_url w. split.
  - intros response w1 Hget Hmedia Hempty.
    rewrite (download_media_step server fuel m3u8_url w response w1 Hget Hmedia).
    unfold media_segment_urls. rewrite segment_loop_spec, Hempty. reflexivity.
  - intros urls w'. apply download_returns_nonempty.
Qed.

Lemma C7_three_attempts_then_abort_witness :
  request_with_retry (Examples.flaky_server 2 Examples.media_pages)
                     max_attempts 0 Examples.media_url Examples.w0
  = (Return (Examples.ok Examples.media_two),
     mkWorld (Examples.three_attempts Examples.media_url) ∅)
  /\ request_with_retry (Examples.flaky_server 3 Examples.media_pages)
                        max_attempts 0 Examples.media_url Examples.w0
     = (SysExit FetchError,
        mkWorld (Examples.three_attempts Examples.media_url) ∅)
  /\ download_all (Examples.flaky_server 3 Examples.media_pages)
                  Examples.always_writable
                  ([] ++ Examples.media_url :: ["http://cdn/stream/next.ts"])
                  "/tmp/t" 1 [] Examples.w0
     = (SysExit FetchError,
        mkWorld (Examples.three_attempts Examples.media_url) ∅).
Proof.
  split; [|split].
  - generalize (C7_three_attempts_then_abort
                  (Examples.flaky_server 2 Examples.media_pages)
                  Examples.always_writable Examples.media_url Examples.w0
                  eq_refl eq_refl).
    cbv zeta.
    match goal with
    | |- match ?x with _ => _ end -> _ =>
        replace x with (Some (Examples.ok Examples.media_two))
          by (vm_compute; reflexivity)
    end.
    intros [H _]. exact H.
  - generalize (C7_three_attempts_then_abort
                  (Examples.flaky_server 3 Examples.media_pages)
                  Examples.always_writable Examples.media_url Examples.w0
                  eq_refl eq_refl).
    cbv zeta.
    match goal with
    | |- match ?x with _ => _ end -> _ =>
        replace x with (@None Response) by (vm_compute; reflexivity)
    end.
    intros [H _]. exact H.
  - generalize (C7_three_attempts_then_abort
                  (Examples.flaky_server 3 Examples.media_pages)
                  Examples.always_writable Examples.media_url Examples.w0
                  eq_refl eq_refl).
    cbv zeta.
    match goal with
    | |- match ?x with _ => _ end -> _ =>
        replace x with (@None Response) by (vm_compute; reflexivity)
    end.
    intros [_ [_ [_ [H _]]]].
    apply (H [] ["http://cdn/stream/next.ts"] "/tmp/t" 1 [] Examples.w0 []).
    reflexivity.
Defined.

Lemma C8_no_segments_is_a_failure_witness :
  download_m3u8_playlist (Examples.static_server Examples.media_pages) 1
                         "http://cdn/stream/empty.m3u8" Examples.w0
  = (SysExit NoSegmentsError, mkWorld [Get "http://cdn/stream/empty.m3u8"] ∅)
  /\ download_m3u8_playlist (Examples.static_server Examples.media_pages) 1
                            Examples.media_url Examples.w0
     = (Return ["http://cdn/stream/seg_000.ts"; "http://cdn/stream/seg_001.ts"],
        mkWorld [Get Examples.media_url] ∅)
  /\ ["http://cdn/stream/seg_000.ts"; "http://cdn/stream/seg_001.ts"] <> [].
Proof.
  assert (download_m3u8_playlist (Examples.static_server Examples.media_pages)
            1 Examples.media_url Examples.w0
          = (Return ["http://cdn/stream/seg_000.ts";
                     "http://cdn/stream/seg_001.ts"],
             mkWorld [Get Examples.media_url] ∅)) as Hrun
    by (vm_compute; reflexivity).
  split; [|split].
  - destruct (C8_no_segments_is_a_failure
                (Examples.static_server Examples.media_pages) 0
                "http://cdn/stream/empty.m3u8" Examples.w0) as [H _].
    apply (H (Examples.ok (Py.unlines ["#EXTM3U"; "# nothing"]))).
    + vm_compute. reflexivity.
    + vm_compute. reflexivity.
    + vm_compute. reflexivity.
  - exact Hrun.
  - destruct (C8_no_segments_is_a_failure
                (Examples.static_server Examples.media_pages) 1
                Examples.media_url Examples.w0) as [_ H].
    exact (H _ _ Hrun).
Defined.

(** ** Depth of the recursion *)








(** ** Concatenation *)

Lemma concatenate_loop_spec (segment_paths : list string)
    (buffers : list (list Byte.byte)) (output_path : string)
    (fs : gmap string (list Byte.byte)) (written : list Byte.byte) :
  ~ In output_path segment_paths ->
  Forall2 (fun path data => fs !! path = Some data) segment_paths buffers ->
  fs !! output_path = Some written ->
  concatenate_loop segment_paths output_path fs
  = (Return tt, <[output_path := written ++ concat buffers]> fs).
Proof.
  revert buffers fs written.
  induction segment_paths as [|segment rest IH];
    intros buffers fs written Hout Hall Hw;
    inversion Hall as [|? data ? datas Hdata Hrest]; subst.
  - cbn. rewrite app_nil_r, insert_id by exact Hw. reflexivity.
  - cbn [concatenate_loop]. rewrite Hdata, Hw.
    change (default [] (Some written)) with written.
    assert (~ In output_path rest) as Hout'
      by (intros ?; apply Hout; now right).
    assert (Forall2 (fun path data0 =>
                       <[output_path := written ++ data]> fs !! path
                       = Some data0) rest datas) as Hrest'.
    { clear -Hrest Hout'.
      induction Hrest as [|p b ps bs Hp _ IHr]; constructor.
      - rewrite lookup_insert_ne; [exact Hp|].
        intros ->. apply Hout'. now left.
      - apply IHr. intros ?. apply Hout'. now right. }
    rewrite (IH datas _ (written ++ data) Hout' Hrest')
      by apply lookup_insert_eq.
    rewrite insert_insert_eq. cbn [concat]. rewrite <- app_assoc.
    reflexivity.
Qed.

(** The download loop names its files by the place of their segment in the
    list, counted from [index], and returns the names in that order: the
    order of the list handed to the concatenation is the order of the
    tags. *)
Lemma download_segment_path server writable url temp_dir index w path w1 :
  download_segment server writable url temp_dir index w = (Return path, w1) ->
  exists ext,
    path = OsPath.join temp_dir
             ("segment_" +:+ OsPath.format_05d index +:+ ext).
Proof.
  unfold download_segment, bind.
  destruct (request_with_retry server max_attempts 0 url w)
    as [[response| |] w2]; try discriminate.
  destruct (writable _); [|discriminate].
  intros [= <- _]. eauto.
Qed.

Lemma download_all_tags_in_order server writable urls temp_dir index acc w
    paths w' :
  download_all server writable urls temp_dir index acc w = (Return paths, w') ->
  exists new,
    paths = acc ++ new
    /\ Forall2 (fun k path =>
                  exists ext,
                    path = OsPath.join temp_dir
                             ("segment_" +:+ OsPath.format_05d k +:+ ext))
               (seq index (length urls)) new.
Proof.
  revert index acc w. induction urls as [|url urls IH]; intros index acc w.
  - cbn. intros [= <- _]. exists []. rewrite app_nil_r. split; constructor.
  - cbn [download_all length seq]. unfold bind.
    destruct (download_segment server writable url temp_dir index w)
      as [[path| |] w1] eqn:Hseg; try discriminate.
    intros Hrest. apply IH in Hrest as [new [-> Hnew]].
    exists (path :: new). rewrite <- app_assoc. split; [reflexivity|].
    constructor.
    + exact (download_segment_path _ _ _ _ _ _ _ _ Hseg).
    + replace (S index) with (index + 1) by lia. exact Hnew.
Qed.

(** C9: over segment files that hold the buffers, listed in the order of
    their tags, concatenation leaves in the output file exactly the bytes
    of the first buffer, then those of the second, and so on, with nothing
    between them, and leaves every other file as it was. *)
Theorem C9_concatenation_is_bytewise :
  forall (writable : string -> bool) (segment_paths : list string)
         (buffers : list (list Byte.byte)) (output_path : string) (w : World),
    writable output_path = true ->
    ~ In output_path segment_paths ->
    Forall2 (fun path data => files w !! path = Some data)
            segment_paths buffers ->
    concatenate_segments writable segment_paths output_path w
    = (Return tt,
       mkWorld (trace w) (<[output_path := concat buffers]> (files w))).
Proof.
  intros writable segment_paths buffers output_path w Hw Hout Hall.
  unfold concatenate_segments. rewrite Hw.
  rewrite (concatenate_loop_spec segment_paths buffers output_path _ []).
  - rewrite insert_insert_eq. reflexivity.
  - exact Hout.
  - clear -Hall Hout. induction Hall as [|p b ps bs Hp _ IH]; constructor.
    + rewrite lookup_insert_ne; [exact Hp|].
      intros ->. apply Hout. now left.
    + apply IH. intros ?. apply Hout. now right.
  - apply lookup_insert_eq.
Qed.

Lemma C9_concatenation_is_bytewise_witness :
  concatenate_segments Examples.always_writable Examples.three_paths
                       "/tmp/t/concatenated.aac" Examples.three_segments
  = (Return tt,
     mkWorld [] (<["/tmp/t/concatenated.aac" := Examples.bytes "AABBCC"]>
                   (files Examples.three_segments))).
Proof.
  apply (C9_concatenation_is_bytewise Examples.always_writable
           Examples.three_paths
           [Examples.bytes "AA"; Examples.bytes "BB"; Examples.bytes "CC"]
           "/tmp/t/concatenated.aac" Examples.three_segments).
  - reflexivity.
  - intros [H|[H|[H|[]]]]; discriminate H.
  - repeat constructor.
Defined.

(** ** URL resolution *)


Lemma urljoin_same_scheme_with_host (base url : string) :
  let b := UrlParse.urlparse base "" in
  let u := UrlParse.urlparse url (UrlParse.scheme b) in
  Py.is_empty base = false ->
  Py.is_empty url = false ->
  String.eqb (UrlParse.scheme u) (UrlParse.scheme b) = true ->
  UrlParse.mem (UrlParse.scheme u) UrlParse.uses_relative = true ->
  UrlParse.mem (UrlParse.scheme u) UrlParse.uses_netloc = true ->
  Py.is_empty (UrlParse.netloc u) = false ->
  UrlParse.urljoin base url = UrlParse.urlunparse u.
Proof.
  intros b u Hbase Hurl Hsame Hrel Hnet Hhost. unfold UrlParse.urljoin.
  rewrite Hbase, Hurl. cbv zeta. fold b. fold u.
  rewrite Hsame, Hrel, Hnet, Hhost. reflexivity.
Qed.




(** ** A whole run *)

Example main_run :
  match main Examples.cdn_server Examples.always_writable
             Examples.copy_transcoder 1
             ["m3u8_to_mp3_converter.py"; Examples.media_url; "out.mp3"]
             "/tmp/t" Examples.w0 with
  | (Return tt, w) =>
      trace w = [Get "http://cdn/stream/seg_001.ts";
                 Get "http://cdn/stream/seg_000.ts"; Get Examples.media_url]
      /\ files w !! "/tmp/t/segment_00001.aac" = Some (Examples.bytes "AABB")
      /\ files w !! "/tmp/t/segment_00002.ts" = Some (Examples.bytes "CC")
      /\ files w !! "out.mp3" = Some (Examples.bytes "AABBCC")
  | _ => False
  end.
Proof. vm_compute. repeat split. Qed.

(** * Further properties of the program *)

(** ** The retry loop *)

Section RetryLoop.

Variable server : list event -> string -> option Response.

Lemma request_with_retry_cases (url : string) (w : World) :
  exists k,
    1 <= k <= max_attempts
    /\ snd (request_with_retry server max_attempts 0 url w)
       = mkWorld (attempts_trace k url (trace w)) (files w)
    /\ (forall j, 1 <= j < k ->
                  server (seen_at_attempt j url (trace w)) url = None)
    /\ ((exists response,
            fst (request_with_retry server max_attempts 0 url w)
            = Return response
            /\ server (seen_at_attempt k url (trace w)) url = Some response)
        \/ (fst (request_with_retry server max_attempts 0 url w)
            = SysExit FetchError
            /\ k = max_attempts
            /\ server (seen_at_attempt k url (trace w)) url = None)).
Proof.
  unfold max_attempts. cbn [request_with_retry Nat.ltb Nat.leb].
  unfold http_get, sleep. cbn [trace files Nat.add Nat.eqb].
  destruct (server (trace w) url) as [r1|] eqn:E1.
  { exists 1. cbn. repeat split; try lia; eauto. }
  cbn [trace files Nat.add Nat.eqb Nat.ltb Nat.leb].
  destruct (server (Sleep 2 :: Get url :: trace w) url) as [r2|] eqn:E2.
  { exists 2. cbn. repeat split; try lia; eauto.
    intros j Hj. assert (j = 1) as -> by lia. exact E1. }
  cbn [trace files Nat.add Nat.eqb Nat.ltb Nat.leb].
  assert (forall j, 1 <= j < 3 ->
            server (seen_at_attempt j url (trace w)) url = None) as Hfail.
  { intros j Hj. assert (j = 1 \/ j = 2) as [-> | ->] by lia; assumption. }
  destruct (server (Sleep 2 :: Get url :: Sleep 2 :: Get url :: trace w) url)
    as [r3|] eqn:E3.
  - exists 3. cbn [fst snd attempts_trace seen_at_attempt].
    repeat split; try lia; eauto.
  - exists 3. cbn [fst snd attempts_trace seen_at_attempt].
    repeat split; try lia; eauto.
Qed.

Lemma attempts_trace_extends (k : nat) (url : string) (before : list event) :
  exists new, attempts_trace k url before = new ++ before.
Proof.
  induction k as [|k [new IH]]; [now exists []|].
  cbn [attempts_trace]. destruct k as [|k].
  - now exists [Get url].
  - exists (Get url :: Sleep 2 :: new). rewrite IH. reflexivity.
Qed.

Lemma request_with_retry_world (url : string) (w : World) r w' :
  request_with_retry server max_attempts 0 url w = (r, w') ->
  files w' = files w /\ exists new, trace w' = new ++ trace w.
Proof.
  intros Hrun. destruct (request_with_retry_cases url w) as [k [_ [Hw _]]].
  rewrite Hrun in Hw. cbn [snd] in Hw. subst w'. cbn [trace files].
  split; [reflexivity|]. apply attempts_trace_extends.
Qed.

Lemma request_with_retry_result (url : string) (w : World) r w' :
  request_with_retry server max_attempts 0 url w = (r, w') ->
  (exists response, r = Return response) \/ r = SysExit FetchError.
Proof.
  intros Hrun.
  destruct (request_with_retry_cases url w) as [k [_ [_ [_ Hres]]]].
  rewrite Hrun in Hres. cbn [fst] in Hres.
  destruct Hres as [[response [-> _]] | [-> _]]; eauto.
Qed.

(** The resolver writes no file, and only adds to the trace. *)
Lemma download_m3u8_playlist_world fuel url w r w' :
  download_m3u8_playlist server fuel url w = (r, w') ->
  files w' = files w /\ exists new, trace w' = new ++ trace w.
Proof.
  revert url w. induction fuel as [|fuel IH]; intros url w.
  - cbn. intros [= _ <-]. split; [reflexivity|]. now exists [].
  - cbn [download_m3u8_playlist].
    destruct (request_with_retry server max_attempts 0 url w)
      as [r1 w1] eqn:Hget.
    apply request_with_retry_world in Hget as [Hf [new1 Ht]].
    assert (forall r2 w2, (r2, w1) = (r, w2) ->
              files w2 = files w /\ exists new, trace w2 = new ++ trace w)
      as Hhere.
    { intros r2 w2 [= _ <-]. split; [exact Hf|]. eauto. }
    destruct r1 as [response| |]; try apply Hhere.
    destruct (is_master_playlist (text response)).
    + destruct (select_variant_playlist _ _) as [variant_url|];
        [|apply Hhere].
      destruct (Py.is_empty variant_url); [apply Hhere|].
      intros Hrec. apply IH in Hrec as [Hf2 [new2 Ht2]].
      split; [congruence|]. exists (new2 ++ new1).
      rewrite Ht2, Ht, app_assoc. reflexivity.
    + destruct (media_segment_urls url (text response)); apply Hhere.
Qed.


End RetryLoop.

(** X1: whatever the server does, a request is made between one and three
    times, with a pause of two seconds between two attempts and none after
    the last; every attempt before the last one failed; the outcome is the
    answer to the last attempt, or the fetch failure when that was the
    third attempt and failed too; no file is touched. *)
Theorem retry_makes_one_to_three_attempts :
  forall (server : list event -> string -> option Response)
         (url : string) (w : World),
  exists k,
    1 <= k <= 3
    /\ snd (request_with_retry server max_attempts 0 url w)
       = mkWorld (attempts_trace k url (trace w)) (files w)
    /\ (forall j, 1 <= j < k ->
                  server (seen_at_attempt j url (trace w)) url = None)
    /\ ((exists response,
            fst (request_with_retry server max_attempts 0 url w)
            = Return response
            /\ server (seen_at_attempt k url (trace w)) url = Some response)
        \/ (fst (request_with_retry server max_attempts 0 url w)
            = SysExit FetchError
            /\ k = 3
            /\ server (seen_at_attempt k url (trace w)) url = None)).
Proof. exact request_with_retry_cases. Qed.

Lemma retry_makes_one_to_three_attempts_witness :
  exists k,
    1 <= k <= 3
    /\ snd (request_with_retry (Examples.flaky_server 2 Examples.media_pages)
                               max_attempts 0 Examples.media_url Examples.w0)
       = mkWorld (attempts_trace k Examples.media_url (trace Examples.w0))
                 (files Examples.w0)
    /\ (forall j, 1 <= j < k ->
                  Examples.flaky_server 2 Examples.media_pages
                    (seen_at_attempt j Examples.media_url (trace Examples.w0))
                    Examples.media_url = None)
    /\ ((exists response,
            fst (request_with_retry
                   (Examples.flaky_server 2 Examples.media_pages)
                   max_attempts 0 Examples.media_url Examples.w0)
            = Return response
            /\ Examples.flaky_server 2 Examples.media_pages
                 (seen_at_attempt k Examples.media_url (trace Examples.w0))
                 Examples.media_url = Some response)
        \/ (fst (request_with_retry
                   (Examples.flaky_server 2 Examples.media_pages)
                   max_attempts 0 Examples.media_url Examples.w0)
            = SysExit FetchError
            /\ k = 3
            /\ Examples.flaky_server 2 Examples.media_pages
                 (seen_at_attempt k Examples.media_url (trace Examples.w0))
                 Examples.media_url = None)).
Proof.
  exact (retry_makes_one_to_three_attempts
           (Examples.flaky_server 2 Examples.media_pages)
           Examples.media_url Examples.w0).
Defined.

(** X2: resolving a playlist, however it ends, changes no file, and what
    was in the trace before stays at its end. *)
Theorem resolver_touches_no_file :
  forall (server : list event -> string -> option Response)
         (fuel : nat) (m3u8_url : string) (w : World),
    files (snd (download_m3u8_playlist server fuel m3u8_url w)) = files w
    /\ exists new,
         trace (snd (download_m3u8_playlist server fuel m3u8_url w))
         = new ++ trace w.
Proof.
  intros server fuel m3u8_url w.
  destruct (download_m3u8_playlist server fuel m3u8_url w) as [r w'] eqn:E.
  exact (download_m3u8_playlist_world server fuel m3u8_url w r w' E).
Qed.



(** ** File names *)

Lemma append_cons (c : ascii) (s t : string) :
  String c s +:+ t = String c (s +:+ t).
Proof. reflexivity. Qed.

Lemma append_assoc (a b c : string) : (a +:+ b) +:+ c = a +:+ (b +:+ c).
Proof.
  induction a as [|x a IH]; [reflexivity|].
  rewrite !append_cons, IH. reflexivity.
Qed.

Lemma forallb_str_app (p : ascii -> bool) (a b : string) :
  UrlParse.forallb_str p (a +:+ b)
  = UrlParse.forallb_str p a && UrlParse.forallb_str p b.
Proof.
  induction a as [|x a IH]; [reflexivity|].
  rewrite append_cons. cbn [UrlParse.forallb_str]. rewrite IH.
  apply andb_assoc.
Qed.

Lemma zeros_digits (n : nat) :
  UrlParse.forallb_str UrlParse.is_digit (OsPath.zeros n) = true.
Proof. induction n as [|n IH]; [reflexivity|]. cbn. exact IH. Qed.

Lemma string_of_uint_digits (d : Decimal.uint) :
  UrlParse.forallb_str UrlParse.is_digit (NilEmpty.string_of_uint d) = true.
Proof. induction d; cbn; auto. Qed.

Lemma format_05d_digits (index : nat) :
  UrlParse.forallb_str UrlParse.is_digit (OsPath.format_05d index) = true.
Proof.
  unfold OsPath.format_05d. cbv zeta.
  rewrite forallb_str_app, zeros_digits, string_of_uint_digits. reflexivity.
Qed.

Lemma decimal_value_zeros (n : nat) (s : string) :
  decimal_value (OsPath.zeros n +:+ s) = decimal_value s.
Proof.
  induction n as [|n IH]; [reflexivity|].
  cbn [OsPath.zeros]. rewrite append_cons. rewrite <- IH.
  unfold decimal_value. cbn [NilEmpty.uint_of_string].
  destruct (NilEmpty.uint_of_string (OsPath.zeros n +:+ s)); reflexivity.
Qed.

Lemma decimal_value_format_05d (index : nat) :
  decimal_value (OsPath.format_05d index) = Some index.
Proof.
  unfold OsPath.format_05d. cbv zeta. rewrite decimal_value_zeros.
  unfold decimal_value. rewrite NilEmpty.usu. cbn [option_map].
  rewrite DecimalNat.Unsigned.of_to. reflexivity.
Qed.

Lemma string_length_app (a b : string) :
  String.length (a +:+ b) = String.length a + String.length b.
Proof.
  induction a as [|x a IH]; [reflexivity|].
  rewrite append_cons. cbn [String.length]. rewrite IH. reflexivity.
Qed.

Lemma zeros_length (n : nat) : String.length (OsPath.zeros n) = n.
Proof. induction n as [|n IH]; [reflexivity|]. cbn. now rewrite IH. Qed.

(** Strings of digits followed by a dot are equal up to the dot when the
    whole strings are. *)
Lemma digits_before_dot (a b r r' : string) :
  UrlParse.forallb_str UrlParse.is_digit a = true ->
  UrlParse.forallb_str UrlParse.is_digit b = true ->
  a +:+ String "." r = b +:+ String "." r' ->
  a = b.
Proof.
  revert b. induction a as [|x a IH]; intros [|y b] Ha Hb Heq.
  - reflexivity.
  - rewrite append_cons in Heq. injection Heq as <- _.
    cbn in Hb. discriminate.
  - rewrite append_cons in Heq. injection Heq as -> _.
    cbn in Ha. discriminate.
  - rewrite !append_cons in Heq. injection Heq as -> Heq.
    cbn [UrlParse.forallb_str] in Ha, Hb.
    apply andb_true_iff in Ha as [_ Ha]. apply andb_true_iff in Hb as [_ Hb].
    f_equal. exact (IH b Ha Hb Heq).
Qed.

Lemma join_relative (temp_dir name : string) :
  Py.startswith name "/" = false ->
  OsPath.join temp_dir name = temp_prefix temp_dir +:+ name.
Proof.
  intros Hrel. unfold OsPath.join, temp_prefix. rewrite Hrel.
  destruct (Py.is_empty temp_dir || OsPath.endswith temp_dir "/");
    [reflexivity|].
  rewrite append_assoc. reflexivity.
Qed.

Lemma segment_path_of_prefix (temp_dir : string) (index : nat) (ext : string) :
  segment_path_of temp_dir index ext
  = temp_prefix temp_dir +:+ "segment_" +:+ OsPath.format_05d index +:+ ext.
Proof. unfold segment_path_of. now rewrite join_relative. Qed.

Lemma segment_path_of_inj (temp_dir : string) (i j : nat) (e e' : string) :
  segment_path_of temp_dir i (String "." e)
  = segment_path_of temp_dir j (String "." e') ->
  i = j.
Proof.
  rewrite !segment_path_of_prefix. intros Heq.
  apply String.app_inj in Heq. apply (String.app_inj "segment_") in Heq.
  apply digits_before_dot in Heq; try apply format_05d_digits.
  apply (f_equal decimal_value) in Heq.
  rewrite !decimal_value_format_05d in Heq. now injection Heq.
Qed.

Lemma concatenated_is_no_segment (temp_dir : string) (lo : nat) :
  ~ is_segment_path temp_dir lo (OsPath.join temp_dir "concatenated.aac").
Proof.
  intros [index [ext [_ Heq]]].
  rewrite segment_path_of_prefix, join_relative in Heq by reflexivity.
  apply String.app_inj in Heq. discriminate Heq.
Qed.

Lemma startswith_app (a b : string) : Py.startswith (a +:+ b) a = true.
Proof. apply startswith_spec. now exists b. Qed.

Lemma outside_temp_is_no_segment (temp_dir path : string) (lo : nat) :
  Py.startswith path (temp_prefix temp_dir) = false ->
  ~ is_segment_path temp_dir lo path
  /\ path <> OsPath.join temp_dir "concatenated.aac".
Proof.
  intros Hout. split.
  - intros [index [ext [_ ->]]].
    rewrite segment_path_of_prefix, startswith_app in Hout. discriminate.
  - intros ->. rewrite join_relative, startswith_app in Hout by reflexivity.
    discriminate.
Qed.

(** ** Downloading segments *)

Lemma written_chunks_from (chunks : list (list Byte.byte))
    (data : list Byte.byte) :
  fold_left (fun data chunk =>
               match chunk with [] => data | _ => data ++ chunk end)
            chunks data
  = data ++ concat chunks.
Proof.
  revert data. induction chunks as [|chunk chunks IH]; intros data.
  - cbn. now rewrite app_nil_r.
  - cbn [fold_left concat]. rewrite IH. destruct chunk as [|b chunk].
    + reflexivity.
    + now rewrite <- app_assoc.
Qed.

Lemma written_chunks_concat (chunks : list (list Byte.byte)) :
  written_chunks chunks = concat chunks.
Proof. unfold written_chunks. now rewrite written_chunks_from. Qed.

Lemma splitext_ext_dot (p : string) :
  OsPath.splitext_ext p = "" \/ exists e, OsPath.splitext_ext p = String "." e.
Proof.
  unfold OsPath.splitext_ext. cbv zeta.
  destruct (UrlParse.rcut "." _) as [[stem e]|]; [|now left].
  destruct (UrlParse.forallb_str _ stem); [now left|].
  right. now exists e.
Qed.

Lemma segment_ext_dot (segment_url : string) (response : Response) :
  exists e, segment_ext segment_url response = String "." e.
Proof.
  unfold segment_ext. destruct (content_type response) as [ct|].
  - destruct (OsPath.contains_sub "audio" ct); eexists; reflexivity.
  - cbv zeta.
    destruct (splitext_ext_dot
                (UrlParse.path (UrlParse.urlparse segment_url "")))
      as [-> | [e ->]]; eexists; reflexivity.
Qed.

Lemma is_segment_path_weaken (temp_dir path : string) (lo lo' : nat) :
  lo <= lo' -> is_segment_path temp_dir lo' path ->
  is_segment_path temp_dir lo path.
Proof. intros Hle [index [ext [Hlo ->]]]. exists index, ext. split; [lia|easy]. Qed.

Section Segments.

Variable server : list event -> string -> option Response.
Variable writable : string -> bool.

Lemma request_with_retry_answer (url : string) (w : World) response w' :
  request_with_retry server max_attempts 0 url w = (Return response, w') ->
  exists history, server history url = Some response.
Proof.
  intros Hrun.
  destruct (request_with_retry_cases server url w) as [k [_ [_ [_ Hres]]]].
  rewrite Hrun in Hres. cbn [fst] in Hres.
  destruct Hres as [[r [[= <-] Hans]] | [[=] _]]. eauto.
Qed.

Lemma download_segment_success url temp_dir index w path w' :
  download_segment server writable url temp_dir index w = (Return path, w') ->
  exists response ext,
    (exists history, server history url = Some response)
    /\ segment_ext url response = String "." ext
    /\ path = segment_path_of temp_dir index (String "." ext)
    /\ writable path = true
    /\ files w' = <[path := concat (iter_content response)]> (files w).
Proof.
  unfold download_segment, bind.
  destruct (request_with_retry server max_attempts 0 url w)
    as [[response| |] wr] eqn:Hget; try discriminate.
  destruct (segment_ext_dot url response) as [ext Hext].
  destruct (writable _) eqn:Hw; [|discriminate].
  intros [= <- <-]. exists response, ext.
  apply request_with_retry_world in Hget as Hworld. destruct Hworld as [Hf _].
  split; [exact (request_with_retry_answer _ _ _ _ Hget)|].
  split; [exact Hext|].
  unfold segment_path_of. rewrite <- Hext. split; [reflexivity|].
  split; [exact Hw|].
  cbn [write_file files]. rewrite written_chunks_concat, Hf. reflexivity.
Qed.

Lemma download_segment_failure url temp_dir index w r w' :
  download_segment server writable url temp_dir index w = (r, w') ->
  (forall path, r <> Return path) ->
  files w' = files w
  /\ (r = SysExit FetchError \/ r = SysExit LocalIOError).
Proof.
  unfold download_segment, bind.
  destruct (request_with_retry server max_attempts 0 url w)
    as [r1 wr] eqn:Hget.
  apply request_with_retry_world in Hget as Hworld. destruct Hworld as [Hf _].
  apply request_with_retry_result in Hget as [[response ->] | ->].
  - destruct (writable _).
    + intros [= <- _] Hno. exfalso. eapply Hno. reflexivity.
    + unfold exit. intros [= <- <-] _. auto.
  - intros [= <- <-] _. auto.
Qed.

Lemma download_segment_outside url temp_dir index w r w' path :
  download_segment server writable url temp_dir index w = (r, w') ->
  ~ is_segment_path temp_dir index path ->
  files w' !! path = files w !! path.
Proof.
  intros Hrun Hout. destruct r as [written| |].
  - destruct (download_segment_success _ _ _ _ _ _ Hrun)
      as [response [ext [_ [_ [-> [_ ->]]]]]].
    apply lookup_insert_ne. intros <-. apply Hout.
    exists index, ext. split; [lia|reflexivity].
  - destruct (download_segment_failure _ _ _ _ _ _ Hrun) as [-> _];
      [discriminate|reflexivity].
  - destruct (download_segment_failure _ _ _ _ _ _ Hrun) as [-> _];
      [discriminate|reflexivity].
Qed.

Lemma download_all_outside urls temp_dir index acc w r w' path :
  download_all server writable urls temp_dir index acc w = (r, w') ->
  ~ is_segment_path temp_dir index path ->
  files w' !! path = files w !! path.
Proof.
  revert index acc w. induction urls as [|url urls IH]; intros index acc w.
  - cbn. intros [= _ <-] _. reflexivity.
  - cbn [download_all]. unfold bind at 1.
    destruct (download_segment server writable url temp_dir index w)
      as [r1 w1] eqn:Hseg.
    intros Hrest Hout.
    assert (files w1 !! path = files w !! path) as Hone
      by exact (download_segment_outside _ _ _ _ _ _ _ Hseg Hout).
    destruct r1 as [written| |]; try (injection Hrest as _ <-; exact Hone).
    rewrite <- Hone. apply (IH _ _ _ Hrest).
    intros Hin. apply Hout. apply (is_segment_path_weaken _ _ index (index + 1));
      [lia|exact Hin].
Qed.

(** What a run of the loop that ends well leaves behind. *)
Lemma download_all_stores urls temp_dir index acc w paths w' :
  download_all server writable urls temp_dir index acc w = (Return paths, w') ->
  exists new responses,
    paths = acc ++ new
    /\ Forall2 (fun k path =>
                  exists ext,
                    path = segment_path_of temp_dir k (String "." ext))
               (seq index (length urls)) new
    /\ Forall2 (fun url response =>
                  exists history, server history url = Some response)
               urls responses
    /\ Forall2 (fun path response =>
                  files w' !! path = Some (concat (iter_content response)))
               new responses.
Proof.
  revert index acc w. induction urls as [|url urls IH]; intros index acc w.
  - cbn. intros [= <- _]. exists [], []. rewrite app_nil_r.
    repeat split; constructor.
  - cbn [download_all length seq]. unfold bind at 1.
    destruct (download_segment server writable url temp_dir index w)
      as [[path| |] w1] eqn:Hseg; try discriminate.
    intros Hrest.
    destruct (download_segment_success _ _ _ _ _ _ Hseg)
      as [response [ext [Hans [_ [Hpath [_ Hfiles]]]]]].
    destruct (IH _ _ _ Hrest) as [new [responses [-> [Htag [Hanss Hstored]]]]].
    exists (path :: new), (response :: responses).
    rewrite <- app_assoc. split; [reflexivity|].
    split; [|split].
    + constructor; [eauto|]. replace (S index) with (index + 1) by lia.
      exact Htag.
    + constructor; assumption.
    + constructor; [|exact Hstored].
      rewrite (download_all_outside _ _ _ _ _ _ _ path Hrest).
      * rewrite Hfiles. apply lookup_insert_eq.
      * intros [k [e [Hk Heq]]]. rewrite Hpath in Heq.
        apply segment_path_of_inj in Heq. lia.
Qed.

End Segments.

Lemma tagged_paths_differ (temp_dir : string) (index n : nat)
    (paths : list string) :
  Forall2 (fun k path =>
             exists ext, path = segment_path_of temp_dir k (String "." ext))
          (seq index n) paths ->
  NoDup paths /\ Forall (is_segment_path temp_dir index) paths.
Proof.
  revert index paths. induction n as [|n IH]; intros index paths Htag.
  - inversion Htag; subst. split; constructor.
  - cbn [seq] in Htag.
    inversion Htag as [|k path ks ps [ext Hpath] Hrest]; subst.
    destruct (IH _ _ Hrest) as [Hnodup Hall].
    split.
    + constructor; [|exact Hnodup].
      intros Hin. rewrite Forall_forall in Hall.
      apply Hall in Hin as [k [e [Hk Heq]]].
      apply segment_path_of_inj in Heq. lia.
    + constructor.
      * exists index, ext. split; [lia|reflexivity].
      * eapply Forall_impl; [exact Hall|].
        intros p. apply is_segment_path_weaken. lia.
Qed.

(** X4: a segment download that ends well has written, under the name made
    of the temporary directory, the index padded to five digits and an
    extension that begins with a dot, exactly the bytes of the chunks of an
    answer of the server to that URL, one after the other; it has changed
    no other file. *)
Theorem download_segment_writes_the_body :
  forall (server : list event -> string -> option Response)
         (writable : string -> bool) (segment_url temp_dir : string)
         (index : nat) (w : World) (path : string) (w' : World),
    download_segment server writable segment_url temp_dir index w
    = (Return path, w') ->
    exists response ext,
      (exists history, server history segment_url = Some response)
      /\ segment_ext segment_url response = String "." ext
      /\ path = segment_path_of temp_dir index (String "." ext)
      /\ writable path = true
      /\ files w' = <[path := concat (iter_content response)]> (files w).
Proof. exact download_segment_success. Qed.

Lemma download_segment_writes_the_body_witness :
  exists response ext,
    (exists history,
        Examples.cdn_server history "http://cdn/stream/seg_000.ts"
        = Some response)
    /\ segment_ext "http://cdn/stream/seg_000.ts" response = String "." ext
    /\ "/tmp/t/segment_00007.aac" = segment_path_of "/tmp/t" 7 (String "." ext)
    /\ Examples.always_writable "/tmp/t/segment_00007.aac" = true
    /\ files (write_file "/tmp/t/segment_00007.aac" (Examples.bytes "AABB")
                (mkWorld [Get "http://cdn/stream/seg_000.ts"] ∅))
       = <["/tmp/t/segment_00007.aac" := concat (iter_content response)]>
           (files Examples.w0).
Proof.
  apply (download_segment_writes_the_body Examples.cdn_server
           Examples.always_writable "http://cdn/stream/seg_000.ts" "/tmp/t" 7
           Examples.w0).
  vm_compute. reflexivity.
Defined.



(** X6: a download loop that ends well returns, after the paths it was
    given, one path for each URL, in the order of the URLs; the path of the
    URL at place [k] carries the number [index + k]; no two of these paths
    are equal; and at the end each of them holds the bytes of an answer of
    the server to its URL. *)
Theorem download_all_stores_every_segment :
  forall (server : list event -> string -> option Response)
         (writable : string -> bool) (segment_urls : list string)
         (temp_dir : string) (index : nat) (segment_paths : list string)
         (w : World) (paths : list string) (w' : World),
    download_all server writable segment_urls temp_dir index segment_paths w
    = (Return paths, w') ->
    exists new responses,
      paths = segment_paths ++ new
      /\ Forall2 (fun k path =>
                    exists ext,
                      path = segment_path_of temp_dir k (String "." ext))
                 (seq index (length segment_urls)) new
      /\ NoDup new
      /\ Forall2 (fun url response =>
                    exists history, server history url = Some response)
                 segment_urls responses
      /\ Forall2 (fun path response =>
                    files w' !! path = Some (concat (iter_content response)))
                 new responses.
Proof.
  intros server writable segment_urls temp_dir index segment_paths w paths w'
         Hrun.
  destruct (download_all_stores _ _ _ _ _ _ _ _ _ Hrun)
    as [new [responses [Hp [Htag [Hans Hstored]]]]].
  exists new, responses. repeat split; try assumption.
  exact (proj1 (tagged_paths_differ _ _ _ _ Htag)).
Qed.

Lemma download_all_stores_every_segment_witness :
  exists new responses,
    ["/tmp/t/segment_00001.aac"; "/tmp/t/segment_00002.ts"] = [] ++ new
    /\ Forall2 (fun k path =>
                  exists ext,
                    path = segment_path_of "/tmp/t" k (String "." ext))
               (seq 1 2) new
    /\ NoDup new
    /\ Forall2 (fun url response =>
                  exists history,
                    Examples.cdn_server history url = Some response)
               ["http://cdn/stream/seg_000.ts"; "http://cdn/stream/seg_001.ts"]
               responses
    /\ Forall2 (fun path response =>
                  files
                    (mkWorld
                       [Get "http://cdn/stream/seg_001.ts";
                        Get "http://cdn/stream/seg_000.ts"]
                       (<["/tmp/t/segment_00002.ts" := Examples.bytes "CC"]>
                          (<["/tmp/t/segment_00001.aac" :=
                               Examples.bytes "AABB"]> ∅))) !! path
                  = Some (concat (iter_content response)))
               new responses.
Proof.
  apply (download_all_stores_every_segment Examples.cdn_server
           Examples.always_writable
           ["http://cdn/stream/seg_000.ts"; "http://cdn/stream/seg_001.ts"]
           "/tmp/t" 1 [] Examples.w0).
  vm_compute. reflexivity.
Defined.

(** X7: however the download loop ends, a file whose path is not the name
    of a segment numbered [index] or higher in the temporary directory is
    what it was before. *)
Theorem download_all_touches_segment_files_only :
  forall (server : list event -> string -> option Response)
         (writable : string -> bool) (segment_urls : list string)
         (temp_dir : string) (index : nat) (segment_paths : list string)
         (w : World) (path : string),
    ~ is_segment_path temp_dir index path ->
    files (snd (download_all server writable segment_urls temp_dir index
                             segment_paths w)) !! path
    = files w !! path.
Proof.
  intros server writable segment_urls temp_dir index segment_paths w path Hout.
  destruct (download_all server writable segment_urls temp_dir index
                         segment_paths w) as [r w'] eqn:Hrun.
  exact (download_all_outside _ _ _ _ _ _ _ _ _ path Hrun Hout).
Qed.

Lemma download_all_touches_segment_files_only_witness :
  files (snd (download_all Examples.cdn_server Examples.always_writable
                ["http://cdn/stream/seg_000.ts"] "/tmp/t" 1 []
                Examples.three_segments))
    !! OsPath.join "/tmp/t" "concatenated.aac"
  = files Examples.three_segments !! OsPath.join "/tmp/t" "concatenated.aac".
Proof.
  apply (download_all_touches_segment_files_only Examples.cdn_server
           Examples.always_writable ["http://cdn/stream/seg_000.ts"]
           "/tmp/t" 1 [] Examples.three_segments).
  apply concatenated_is_no_segment.
Defined.

(** ** Concatenation that fails, and what concatenation leaves alone *)

Lemma concatenate_loop_outside (segment_paths : list string)
    (output_path path : string) (fs : gmap string (list Byte.byte)) :
  path <> output_path ->
  snd (concatenate_loop segment_paths output_path fs) !! path = fs !! path.
Proof.
  intros Hne. revert fs.
  induction segment_paths as [|segment rest IH]; intros fs; [reflexivity|].
  cbn [concatenate_loop]. destruct (fs !! segment); [|reflexivity].
  rewrite IH. apply lookup_insert_ne. congruence.
Qed.

Lemma concatenate_loop_missing (before after : list string)
    (missing output_path : string) (buffers : list (list Byte.byte))
    (fs : gmap string (list Byte.byte)) (written : list Byte.byte) :
  ~ In output_path before ->
  missing <> output_path ->
  Forall2 (fun path data => fs !! path = Some data) before buffers ->
  fs !! missing = None ->
  fs !! output_path = Some written ->
  concatenate_loop (before ++ missing :: after) output_path fs
  = (SysExit LocalIOError, <[output_path := written ++ concat buffers]> fs).
Proof.
  revert buffers fs written.
  induction before as [|segment rest IH];
    intros buffers fs written Hout Hne Hall Hmiss Hw;
    inversion Hall as [|? data ? datas Hdata Hrest]; subst.
  - cbn. rewrite Hmiss, app_nil_r, insert_id by exact Hw. reflexivity.
  - cbn [app concatenate_loop]. rewrite Hdata, Hw.
    change (default [] (Some written)) with written.
    assert (~ In output_path rest) as Hout'
      by (intros ?; apply Hout; now right).
    assert (segment <> missing) as Hsm by congruence.
    rewrite (IH datas _ (written ++ data) Hout' Hne).
    + rewrite insert_insert_eq. cbn [concat]. rewrite <- app_assoc.
      reflexivity.
    + clear -Hrest Hout'.
      induction Hrest as [|p b ps bs Hp _ IHr]; constructor.
      * rewrite lookup_insert_ne; [exact Hp|].
        intros ->. apply Hout'. now left.
      * apply IHr. intros ?. apply Hout'. now right.
    + rewrite lookup_insert_ne by congruence. exact Hmiss.
    + apply lookup_insert_eq.
Qed.

(** X8: when a segment file is missing, concatenation stops with the file
    failure at that segment: the output file then holds the bytes of the
    segments before it, and the segments after it are not read. *)
Theorem concatenation_stops_at_a_missing_segment :
  forall (writable : string -> bool) (before after : list string)
         (missing output_path : string) (buffers : list (list Byte.byte))
         (w : World),
    writable output_path = true ->
    ~ In output_path before ->
    missing <> output_path ->
    Forall2 (fun path data => files w !! path = Some data) before buffers ->
    files w !! missing = None ->
    concatenate_segments writable (before ++ missing :: after) output_path w
    = (SysExit LocalIOError,
       mkWorld (trace w) (<[output_path := concat buffers]> (files w))).
Proof.
  intros writable before after missing output_path buffers w Hw Hout Hne Hall
         Hmiss.
  unfold concatenate_segments. rewrite Hw.
  rewrite (concatenate_loop_missing before after missing output_path buffers
             _ []).
  - rewrite insert_insert_eq. reflexivity.
  - exact Hout.
  - exact Hne.
  - clear -Hall Hout. induction Hall as [|p b ps bs Hp _ IH]; constructor.
    + rewrite lookup_insert_ne; [exact Hp|].
      intros ->. apply Hout. now left.
    + apply IH. intros ?. apply Hout. now right.
  - rewrite lookup_insert_ne by congruence. exact Hmiss.
  - apply lookup_insert_eq.
Qed.

Lemma concatenation_stops_at_a_missing_segment_witness :
  concatenate_segments Examples.always_writable
    (["/tmp/t/segment_00001.ts"; "/tmp/t/segment_00002.ts"]
     ++ "/tmp/t/segment_00009.ts" :: ["/tmp/t/segment_00003.ts"])
    "/tmp/t/concatenated.aac" Examples.three_segments
  = (SysExit LocalIOError,
     mkWorld (trace Examples.three_segments)
       (<["/tmp/t/concatenated.aac" :=
            concat [Examples.bytes "AA"; Examples.bytes "BB"]]>
          (files Examples.three_segments))).
Proof.
  apply (concatenation_stops_at_a_missing_segment Examples.always_writable).
  - reflexivity.
  - intros [H|[H|[]]]; discriminate H.
  - discriminate.
  - repeat constructor.
  - vm_compute. reflexivity.
Defined.

(** X9: however concatenation ends, every file other than the output file
    is what it was before. *)
Theorem concatenation_changes_the_output_file_only :
  forall (writable : string -> bool) (segment_paths : list string)
         (output_path path : string) (w : World),
    path <> output_path ->
    files (snd (concatenate_segments writable segment_paths output_path w))
      !! path
    = files w !! path.
Proof.
  intros writable segment_paths output_path path w Hne.
  unfold concatenate_segments. destruct (writable output_path); [|reflexivity].
  pose proof (concatenate_loop_outside segment_paths output_path path
                (<[output_path := []]> (files w)) Hne) as Hloop.
  destruct (concatenate_loop _ _ _) as [r fs]. cbn [snd files] in *.
  rewrite Hloop. apply lookup_insert_ne. congruence.
Qed.

Lemma concatenation_changes_the_output_file_only_witness :
  files (snd (concatenate_segments Examples.always_writable
                Examples.three_paths "/tmp/t/concatenated.aac"
                Examples.three_segments)) !! "/tmp/t/segment_00002.ts"
  = files Examples.three_segments !! "/tmp/t/segment_00002.ts".
Proof.
  apply (concatenation_changes_the_output_file_only Examples.always_writable).
  discriminate.
Defined.

(** ** The whole program *)

Lemma concatenate_segments_outside (writable : string -> bool)
    (segment_paths : list string) (output_path path : string) (w : World)
    r w' :
  concatenate_segments writable segment_paths output_path w = (r, w') ->
  path <> output_path ->
  files w' !! path = files w !! path.
Proof.
  unfold concatenate_segments. destruct (writable output_path).
  - pose proof (concatenate_loop_outside segment_paths output_path path
                  (<[output_path := []]> (files w))) as Hloop.
    destruct (concatenate_loop _ _ _) as [r1 fs]. cbn [snd] in Hloop.
    intros [= _ <-] Hne. cbn [files]. rewrite (Hloop Hne).
    apply lookup_insert_ne. congruence.
  - intros [= _ <-] _. reflexivity.
Qed.

Lemma concatenate_segments_all_present (writable : string -> bool)
    (segment_paths : list string) (buffers : list (list Byte.byte))
    (output_path : string) (w : World) :
  writable output_path = true ->
  ~ In output_path segment_paths ->
  Forall2 (fun path data => files w !! path = Some data)
          segment_paths buffers ->
  concatenate_segments writable segment_paths output_path w
  = (Return tt, mkWorld (trace w) (<[output_path := concat buffers]> (files w))).
Proof.
  intros Hw Hout Hall. unfold concatenate_segments. rewrite Hw.
  rewrite (concatenate_loop_spec segment_paths buffers output_path _ []).
  - rewrite insert_insert_eq. reflexivity.
  - exact Hout.
  - clear -Hall Hout. induction Hall as [|p b ps bs Hp _ IH]; constructor.
    + rewrite lookup_insert_ne; [exact Hp|].
      intros ->. apply Hout. now left.
    + apply IH. intros ?. apply Hout. now right.
  - apply lookup_insert_eq.
Qed.

Lemma stored_bodies (fs : gmap string (list Byte.byte)) (paths : list string)
    (responses : list Response) :
  Forall2 (fun path response => fs !! path = Some (concat (iter_content response)))
          paths responses ->
  Forall2 (fun path data => fs !! path = Some data) paths (map body responses).
Proof. induction 1; constructor; assumption. Qed.

Section WholeProgram.

Variable server : list event -> string -> option Response.
Variable writable : string -> bool.
Variable ffmpeg : list Byte.byte -> option (list Byte.byte).

Lemma main_rejects (argv : list string) (temp_dir : string) (fuel : nat)
    (w : World) :
  valid_args argv = false ->
  exists e,
    main server writable ffmpeg fuel argv temp_dir w = (SysExit e, w)
    /\ (e = UsageError \/ e = InputValidationError).
Proof.
  unfold valid_args, main.
  destruct argv as [|program [|m3u8_url [|output_mp3 [|extra argv]]]];
    try (intros _; exists UsageError; split; [reflexivity|now left]).
  intros Hbad. exists InputValidationError. split; [|now right].
  destruct (Py.startswith m3u8_url "http://");
    destruct (Py.startswith m3u8_url "https://");
    cbn [negb andb orb] in *; try reflexivity;
    rewrite Hbad; reflexivity.
Qed.

Lemma main_accepts (program m3u8_url output_mp3 temp_dir : string)
    (fuel : nat) (w : World) :
  valid_args [program; m3u8_url; output_mp3] = true ->
  main server writable ffmpeg fuel [program; m3u8_url; output_mp3] temp_dir w
  = (segment_urls <- download_m3u8_playlist server fuel m3u8_url ;;
     segment_paths <- download_all server writable segment_urls temp_dir 1 [] ;;
     let concatenated_path := OsPath.join temp_dir "concatenated.aac" in
     _ <- concatenate_segments writable segment_paths concatenated_path ;;
     convert_to_mp3 ffmpeg concatenated_path output_mp3) w.
Proof.
  unfold valid_args, main. intros [Hurl Hmp3]%andb_true_iff.
  rewrite Hmp3. apply orb_true_iff in Hurl.
  destruct (Py.startswith m3u8_url "http://");
    destruct (Py.startswith m3u8_url "https://");
    try reflexivity.
  destruct Hurl; discriminate.
Qed.

Lemma convert_to_mp3_outcome (input_path output_path : string) (w : World)
    r w' :
  convert_to_mp3 ffmpeg input_path output_path w = (r, w') ->
  r = Return tt \/ r = SysExit TranscodeError.
Proof.
  unfold convert_to_mp3. destruct (files w !! input_path) as [data|].
  - destruct (ffmpeg data); intros [= <- _]; auto.
  - intros [= <- _]. auto.
Qed.

Lemma main_output_untouched (program m3u8_url output_mp3 temp_dir : string)
    (fuel : nat) (w : World) r w' :
  Py.startswith output_mp3 (temp_prefix temp_dir) = false ->
  main server writable ffmpeg fuel [program; m3u8_url; output_mp3] temp_dir w
  = (r, w') ->
  r <> Return tt ->
  r <> SysExit TranscodeError ->
  files w' !! output_mp3 = files w !! output_mp3.
Proof.
  intros Hout.
  destruct (outside_temp_is_no_segment temp_dir output_mp3 1 Hout)
    as [Hnoseg Hnoconcat].
  destruct (valid_args [program; m3u8_url; output_mp3]) eqn:Hvalid.
  - rewrite (main_accepts _ _ _ _ _ _ Hvalid). unfold bind.
    destruct (download_m3u8_playlist server fuel m3u8_url w)
      as [r1 w1] eqn:H1.
    apply download_m3u8_playlist_world in H1 as [Hf1 _].
    destruct r1 as [segment_urls| |];
      try (intros [= _ <-] _ _; now rewrite Hf1).
    destruct (download_all server writable segment_urls temp_dir 1 [] w1)
      as [r2 w2] eqn:H2.
    pose proof (download_all_outside _ _ _ _ _ _ _ _ _ output_mp3 H2 Hnoseg)
      as Hf2.
    destruct r2 as [segment_paths| |];
      try (intros [= _ <-] _ _; now rewrite Hf2, Hf1).
    cbv zeta.
    destruct (concatenate_segments writable segment_paths
                (OsPath.join temp_dir "concatenated.aac") w2)
      as [r3 w3] eqn:H3.
    pose proof (concatenate_segments_outside _ _ _ output_mp3 _ _ _ H3
                  Hnoconcat) as Hf3.
    destruct r3 as [[]| |];
      try (intros [= _ <-] _ _; now rewrite Hf3, Hf2, Hf1).
    intros H4 Hne Hnt. apply convert_to_mp3_outcome in H4 as [-> | ->];
      contradiction.
  - destruct (main_rejects [program; m3u8_url; output_mp3] temp_dir fuel w
                Hvalid) as [e [-> _]].
    intros [= _ <-] _ _. reflexivity.
Qed.

Lemma main_resolver_failure (program m3u8_url output_mp3 temp_dir : string)
    (fuel : nat) (w : World) e w1 :
  valid_args [program; m3u8_url; output_mp3] = true ->
  download_m3u8_playlist server fuel m3u8_url w = (SysExit e, w1) ->
  main server writable ffmpeg fuel [program; m3u8_url; output_mp3] temp_dir w
  = (SysExit e, w1)
  /\ files w1 = files w.
Proof.
  intros Hvalid H1. rewrite (main_accepts _ _ _ _ _ _ Hvalid).
  unfold bind at 1. rewrite H1. split; [reflexivity|].
  exact (proj1 (download_m3u8_playlist_world _ _ _ _ _ _ H1)).
Qed.

Lemma main_transcodes_the_stream
    (program m3u8_url output_mp3 temp_dir : string) (fuel : nat) (w : World)
    segment_urls wp segment_paths wd :
  valid_args [program; m3u8_url; output_mp3] = true ->
  download_m3u8_playlist server fuel m3u8_url w = (Return segment_urls, wp) ->
  download_all server writable segment_urls temp_dir 1 [] wp
  = (Return segment_paths, wd) ->
  writable (OsPath.join temp_dir "concatenated.aac") = true ->
  exists responses,
    Forall2 (fun url response =>
               exists history, server history url = Some response)
            segment_urls responses
    /\ let stream := concat (map body responses) in
       let concatenated_path := OsPath.join temp_dir "concatenated.aac" in
       let wc :=
         mkWorld (trace wd) (<[concatenated_path := stream]> (files wd)) in
       main server writable ffmpeg fuel [program; m3u8_url; output_mp3]
            temp_dir w
       = convert_to_mp3 ffmpeg concatenated_path output_mp3 wc
       /\ files wc !! concatenated_path = Some stream
       /\ (forall mp3,
              ffmpeg stream = Some mp3 ->
              main server writable ffmpeg fuel [program; m3u8_url; output_mp3]
                   temp_dir w
              = (Return tt,
                 mkWorld (trace wd) (<[output_mp3 := mp3]> (files wc)))).
Proof.
  intros Hvalid H1 H2 Hw.
  destruct (download_all_stores _ _ _ _ _ _ _ _ _ H2)
    as [new [responses [Hp [Htag [Hans Hstored]]]]].
  cbn [app] in Hp. subst new. exists responses. split; [exact Hans|].
  cbv zeta.
  assert (main server writable ffmpeg fuel [program; m3u8_url; output_mp3]
               temp_dir w
          = convert_to_mp3 ffmpeg (OsPath.join temp_dir "concatenated.aac")
              output_mp3
              (mkWorld (trace wd)
                 (<[OsPath.join temp_dir "concatenated.aac" :=
                      concat (map body responses)]> (files wd)))) as Hmain.
  { rewrite (main_accepts _ _ _ _ _ _ Hvalid).
    unfold bind at 1. rewrite H1. unfold bind at 1. rewrite H2. cbv zeta.
    unfold bind.
    rewrite (concatenate_segments_all_present writable segment_paths
               (map body responses) _ wd Hw).
    - reflexivity.
    - destruct (tagged_paths_differ _ _ _ _ Htag) as [_ Hall].
      intros Hin. rewrite Forall_forall in Hall.
      apply list_elem_of_In in Hin. apply Hall in Hin.
      exact (concatenated_is_no_segment temp_dir 1 Hin).
    - apply stored_bodies. exact Hstored. }
  split; [exact Hmain|]. split; [apply lookup_insert_eq|].
  intros mp3 Hmp3. rewrite Hmain. unfold convert_to_mp3.
  cbn [files trace]. rewrite lookup_insert_eq, Hmp3. reflexivity.
Qed.

End WholeProgram.

(** X10: unless [sys.argv] has three entries, the URL begins with
    [http://] or [https://] and the output name ends with [.mp3], [main]
    stops at once with the usage or the input failure: no request is made,
    no pause taken and no file written. *)
Theorem main_rejects_bad_arguments_before_any_request :
  forall (server : list event -> string -> option Response)
         (writable : string -> bool)
         (ffmpeg : list Byte.byte -> option (list Byte.byte))
         (fuel : nat) (argv : list string) (temp_dir : string) (w : World),
    valid_args argv = false ->
    exists e,
      main server writable ffmpeg fuel argv temp_dir w = (SysExit e, w)
      /\ (e = UsageError \/ e = InputValidationError).
Proof.
  intros server writable ffmpeg fuel argv temp_dir w.
  apply main_rejects.
Qed.

Lemma main_rejects_bad_arguments_before_any_request_witness :
  exists e,
    main Examples.cdn_server Examples.always_writable Examples.copy_transcoder
         1 ["m3u8_to_mp3_converter.py"; "ftp://cdn/stream/index.m3u8"; "out.mp3"]
         "/tmp/t" Examples.w0
    = (SysExit e, Examples.w0)
    /\ (e = UsageError \/ e = InputValidationError).
Proof.
  apply (main_rejects_bad_arguments_before_any_request Examples.cdn_server).
  vm_compute. reflexivity.
Defined.

(** X11: when the output file lies outside the temporary directory, a run
    of [main] that stops before the transcoder is called leaves the output
    file as it was: no output is produced from a part of the segments. *)
Theorem main_failure_leaves_the_output_file :
  forall (server : list event -> string -> option Response)
         (writable : string -> bool)
         (ffmpeg : list Byte.byte -> option (list Byte.byte))
         (fuel : nat) (program m3u8_url output_mp3 temp_dir : string)
         (w : World) (r : result unit) (w' : World),
    Py.startswith output_mp3 (temp_prefix temp_dir) = false ->
    main server writable ffmpeg fuel [program; m3u8_url; output_mp3] temp_dir w
    = (r, w') ->
    r <> Return tt ->
    r <> SysExit TranscodeError ->
    files w' !! output_mp3 = files w !! output_mp3.
Proof.
  intros server writable ffmpeg fuel program m3u8_url output_mp3 temp_dir w r
         w'.
  apply main_output_untouched.
Qed.

Lemma main_failure_leaves_the_output_file_witness :
  files (mkWorld
           (Examples.three_attempts "http://cdn/stream/seg_001.ts"
            ++ [Get "http://cdn/stream/seg_000.ts"; Get Examples.media_url])
           (<["/tmp/t/segment_00001.aac" := Examples.bytes "AABB"]>
              (<["out.mp3" := Examples.bytes "old"]> ∅)))
    !! "out.mp3"
  = files (mkWorld [] (<["out.mp3" := Examples.bytes "old"]> ∅)) !! "out.mp3".
Proof.
  apply (main_failure_leaves_the_output_file Examples.second_segment_down
           Examples.always_writable Examples.copy_transcoder 1
           "m3u8_to_mp3_converter.py" Examples.media_url "out.mp3" "/tmp/t"
           (mkWorld [] (<["out.mp3" := Examples.bytes "old"]> ∅))
           (SysExit FetchError)).
  - vm_compute. reflexivity.
  - vm_compute. reflexivity.
  - discriminate.
  - discriminate.
Defined.

(** X12: when the resolver stops with a failure, [main] stops with the
    same failure in the same world, and no file has been written. *)
Theorem main_stops_when_the_resolver_fails :
  forall (server : list event -> string -> option Response)
         (writable : string -> bool)
         (ffmpeg : list Byte.byte -> option (list Byte.byte))
         (fuel : nat) (program m3u8_url output_mp3 temp_dir : string)
         (w : World) (e : failure) (w1 : World),
    valid_args [program; m3u8_url; output_mp3] = true ->
    download_m3u8_playlist server fuel m3u8_url w = (SysExit e, w1) ->
    main server writable ffmpeg fuel [program; m3u8_url; output_mp3] temp_dir w
    = (SysExit e, w1)
    /\ files w1 = files w.
Proof.
  intros server writable ffmpeg fuel program m3u8_url output_mp3 temp_dir w e
         w1.
  apply main_resolver_failure.
Qed.

Lemma main_stops_when_the_resolver_fails_witness :
  main (Examples.static_server Examples.media_pages) Examples.always_writable
       Examples.copy_transcoder 1
       ["m3u8_to_mp3_converter.py"; "http://cdn/stream/empty.m3u8"; "out.mp3"]
       "/tmp/t" Examples.w0
  = (SysExit NoSegmentsError, mkWorld [Get "http://cdn/stream/empty.m3u8"] ∅)
  /\ files (mkWorld [Get "http://cdn/stream/empty.m3u8"] ∅) = files Examples.w0.
Proof.
  apply (main_stops_when_the_resolver_fails
           (Examples.static_server Examples.media_pages)).
  - vm_compute. reflexivity.
  - vm_compute. reflexivity.
Defined.

(** X13: when the resolver and the download loop end well and the
    concatenated file can be written, the transcoder is called on a
    concatenated file that holds exactly the bytes of the answers to the
    segment URLs, in the order of the playlist; and when the transcoder
    succeeds, [main] ends well with the transcoder's output in the output
    file. *)
Theorem main_transcodes_the_segments_in_order :
  forall (server : list event -> string -> option Response)
         (writable : string -> bool)
         (ffmpeg : list Byte.byte -> option (list Byte.byte))
         (fuel : nat) (program m3u8_url output_mp3 temp_dir : string)
         (w : World) (segment_urls : list string) (wp : World)
         (segment_paths : list string) (wd : World),
    valid_args [program; m3u8_url; output_mp3] = true ->
    download_m3u8_playlist server fuel m3u8_url w = (Return segment_urls, wp) ->
    download_all server writable segment_urls temp_dir 1 [] wp
    = (Return segment_paths, wd) ->
    writable (OsPath.join temp_dir "concatenated.aac") = true ->
    exists responses,
      Forall2 (fun url response =>
                 exists history, server history url = Some response)
              segment_urls responses
      /\ let stream := concat (map body responses) in
         let concatenated_path := OsPath.join temp_dir "concatenated.aac" in
         let wc :=
           mkWorld (trace wd) (<[concatenated_path := stream]> (files wd)) in
         main server writable ffmpeg fuel [program; m3u8_url; output_mp3]
              temp_dir w
         = convert_to_mp3 ffmpeg concatenated_path output_mp3 wc
         /\ files wc !! concatenated_path = Some stream
         /\ (forall mp3,
                ffmpeg stream = Some mp3 ->
                main server writable ffmpeg fuel
                     [program; m3u8_url; output_mp3] temp_dir w
                = (Return tt,
                   mkWorld (trace wd) (<[output_mp3 := mp3]> (files wc)))).
Proof.
  intros server writable ffmpeg fuel program m3u8_url output_mp3 temp_dir w
         segment_urls wp segment_paths wd.
  apply main_transcodes_the_stream.
Qed.

Lemma main_transcodes_the_segments_in_order_witness :
  exists responses,
    Forall2 (fun url response =>
               exists history, Examples.cdn_server history url = Some response)
            ["http://cdn/stream/seg_000.ts"; "http://cdn/stream/seg_001.ts"]
            responses
    /\ let stream := concat (map body responses) in
       let concatenated_path := OsPath.join "/tmp/t" "concatenated.aac" in
       let wc :=
         mkWorld (trace Examples.cdn_downloaded)
                 (<[concatenated_path := stream]>
                    (files Examples.cdn_downloaded)) in
       main Examples.cdn_server Examples.always_writable
            Examples.copy_transcoder 1
            ["m3u8_to_mp3_converter.py"; Examples.media_url; "out.mp3"]
            "/tmp/t" Examples.w0
       = convert_to_mp3 Examples.copy_transcoder concatenated_path "out.mp3" wc
       /\ files wc !! concatenated_path = Some stream
       /\ (forall mp3,
              Examples.copy_transcoder stream = Some mp3 ->
              main Examples.cdn_server Examples.always_writable
                   Examples.copy_transcoder 1
                   ["m3u8_to_mp3_converter.py"; Examples.media_url; "out.mp3"]
                   "/tmp/t" Examples.w0
              = (Return tt,
                 mkWorld (trace Examples.cdn_downloaded)
                         (<["out.mp3" := mp3]> (files wc)))).
Proof.
  apply (main_transcodes_the_segments_in_order Examples.cdn_server
           Examples.always_writable Examples.copy_transcoder 1
           "m3u8_to_mp3_converter.py" Examples.media_url "out.mp3" "/tmp/t"
           Examples.w0
           ["http://cdn/stream/seg_000.ts"; "http://cdn/stream/seg_001.ts"]
           (mkWorld [Get Examples.media_url] ∅)
           ["/tmp/t/segment_00001.aac"; "/tmp/t/segment_00002.ts"]).
  - vm_compute. reflexivity.
  - vm_compute. reflexivity.
  - vm_compute. reflexivity.
  - reflexivity.
Defined.

(** ** More on the parser and on names *)

Lemma is_master_loop_split (lines : list string) :
  is_master_loop lines = true ->
  exists pre tag rest,
    lines = pre ++ tag :: rest
    /\ Forall (fun line => Py.startswith line STREAM_INF = false) pre
    /\ Py.startswith tag STREAM_INF = true.
Proof.
  induction lines as [|line lines IH]; [discriminate|].
  cbn [is_master_loop]. destruct (Py.startswith line STREAM_INF) eqn:Htag.
  - intros _. exists [], line, lines. repeat split; [constructor|exact Htag].
  - intros Hrest. destruct (IH Hrest) as [pre [tag [rest [-> [Hpre Ht]]]]].
    exists (line :: pre), tag, rest. repeat split; [|exact Ht].
    constructor; assumption.
Qed.

(** X14: selection finds no variant in exactly two cases: the document has
    no line that begins with the tag, or the first such line is the last
    line of the document. *)
Theorem selection_fails_exactly_without_a_line_after_the_tag :
  forall m3u8_content base_url : string,
    select_variant_playlist m3u8_content base_url = None
    <-> (is_master_playlist m3u8_content = false
         \/ exists pre tag,
              Py.splitlines m3u8_content = pre ++ [tag]
              /\ Forall (fun line => Py.startswith line STREAM_INF = false) pre
              /\ Py.startswith tag STREAM_INF = true).
Proof.
  intros m3u8_content base_url. split.
  - intros Hnone. destruct (is_master_playlist m3u8_content) eqn:Hm;
      [right|now left].
    unfold is_master_playlist in Hm.
    destruct (is_master_loop_split _ Hm) as [pre [tag [rest [Hl [Hpre Ht]]]]].
    rewrite (select_first_tag _ _ _ _ _ Hl Hpre Ht) in Hnone.
    destruct rest; [|discriminate]. eauto.
  - intros [Hm | [pre [tag [Hl [Hpre Ht]]]]].
    + now apply select_no_tag.
    + now rewrite (select_first_tag _ _ _ _ _ Hl Hpre Ht).
Qed.

(** X15: the index written into a file name reads back as the index: it
    is made of digits only, is at least five characters long, and two
    indices that give the same characters are the same index. *)
Theorem padded_index_reads_back :
  forall index : nat,
    decimal_value (OsPath.format_05d index) = Some index
    /\ UrlParse.forallb_str UrlParse.is_digit (OsPath.format_05d index) = true
    /\ 5 <= String.length (OsPath.format_05d index)
    /\ (forall other,
           OsPath.format_05d index = OsPath.format_05d other -> index = other).
Proof.
  intros index. split; [apply decimal_value_format_05d|].
  split; [apply format_05d_digits|]. split.
  - unfold OsPath.format_05d. cbv zeta.
    rewrite string_length_app, zeros_length. lia.
  - intros other Heq. apply (f_equal decimal_value) in Heq.
    rewrite !decimal_value_format_05d in Heq. now injection Heq.
Qed.

Lemma rcut_absent (c : ascii) (s : string) :
  UrlParse.contains c s = false -> UrlParse.rcut c s = None.
Proof.
  unfold UrlParse.contains. rewrite negb_false_iff.
  induction s as [|a s IH]; [reflexivity|].
  cbn [UrlParse.forallb_str UrlParse.rcut].
  intros [Ha Hs]%andb_true_iff. rewrite (IH Hs).
  apply negb_true_iff in Ha. now rewrite Ha.
Qed.

Lemma rcut_last (c : ascii) (before last : string) :
  UrlParse.contains c last = false ->
  UrlParse.rcut c (before +:+ String c last) = Some (before, last).
Proof.
  intros Hlast. induction before as [|a before IH].
  - change ("" +:+ String c last) with (String c last).
    cbn [UrlParse.rcut]. rewrite (rcut_absent _ _ Hlast), Ascii.eqb_refl.
    reflexivity.
  - rewrite append_cons. cbn [UrlParse.rcut]. rewrite IH. reflexivity.
Qed.

(** X16: the base against which a rendition is resolved is the URL of the
    master playlist up to and with its last slash; for a URL without any
    slash it is the URL followed by a slash. *)
Theorem base_url_is_cut_after_the_last_slash :
  (forall before last : string,
      UrlParse.contains "/" last = false ->
      base_url_of (before +:+ String "/" last) = before +:+ "/")
  /\ (forall m3u8_url : string,
         UrlParse.contains "/" m3u8_url = false ->
         base_url_of m3u8_url = m3u8_url +:+ "/").
Proof.
  split.
  - intros before last Hlast. unfold base_url_of.
    now rewrite (rcut_last _ _ _ Hlast).
  - intros m3u8_url Hno. unfold base_url_of.
    now rewrite (rcut_absent _ _ Hno).
Qed.

Lemma base_url_is_cut_after_the_last_slash_witness :
  base_url_of ("http://host/path" +:+ String "/" "master.m3u8?x=1")
  = "http://host/path" +:+ "/"
  /\ base_url_of "master.m3u8" = "master.m3u8" +:+ "/".
Proof.
  destruct base_url_is_cut_after_the_last_slash as [Hcut Hnone].
  split.
  - apply Hcut. vm_compute. reflexivity.
  - apply Hnone. vm_compute. reflexivity.
Defined.
